(** * Workout API (backend/server.py): a shallow embedding and its properties

    The service is a FastAPI application over one MongoDB collection,
    [db.workouts].  The embedding follows the source function by function:

    - the pydantic models become records (one module per model, so that the
      fields keep their names);
    - the collection is the list of its documents in insertion order;
    - a handler is a computation in a state-and-exception monad over the
      [World] (the collection plus the number of clock readings and of
      identifiers handed out so far);
    - what the source takes from its libraries and its surroundings
      ([datetime.utcnow()], the identifiers the driver mints, [str(e)]) is the
      interface [Runtime].

    The libraries are taken as they behave towards this code: [ObjectId(s)]
    takes a string of 24 characters through [bytes.fromhex], which skips
    ASCII whitespace between bytes, and raises [InvalidId] when that fails
    or the length is not 24; the driver mints the [_id], encodes the
    document (an integer outside 8 bytes has no encoding: [OverflowError])
    and the collection refuses an [_id] it already holds; a date comes back
    from the store cut to the millisecond.  The 16 MB limit on a document is
    a limit of resources and is left out.  The handlers are taken one
    request at a time. *)

From Stdlib Require Import List String Ascii ZArith NArith Lia Bool.
From Stdlib.Strings Require Import Byte.
From Stdlib Require Import Sorted Permutation.
From Stdlib Require Import DecimalString.
Import ListNotations.

Local Open Scope string_scope.
Local Open Scope list_scope.

(** ** bson.ObjectId *)

(** An identifier is a string of bytes: 12 of them when the store minted
    it, and then its text form is 24 hexadecimal digits. *)
Definition ObjectId := list byte.

Definition oid_eqb (a b : ObjectId) : bool :=
  if list_eq_dec byte_eq_dec a b then true else false.

(** The value of one hexadecimal digit, either case ([bytes.fromhex]). *)
Definition hex_value (c : ascii) : option N :=
  let n := N_of_ascii c in
  if (48 <=? n)%N && (n <=? 57)%N then Some (n - 48)%N
  else if (97 <=? n)%N && (n <=? 102)%N then Some (n - 87)%N
  else if (65 <=? n)%N && (n <=? 70)%N then Some (n - 55)%N
  else None.

(** The lower-case digit of a value below 16 ([binascii.hexlify]). *)
Definition hex_char (n : N) : ascii :=
  ascii_of_N (if (n <? 10)%N then 48 + n else 87 + n)%N.

Definition is_hex (c : ascii) : bool :=
  match hex_value c with Some _ => true | None => false end.

Definition hex_pair (a b : ascii) : option byte :=
  match hex_value a, hex_value b with
  | Some h, Some l => Byte.of_N (16 * h + l)
  | _, _ => None
  end.

(** ASCII whitespace: tab, line feed, vertical tab, form feed, carriage
    return and the blank. *)
Definition is_space (c : ascii) : bool :=
  let n := N_of_ascii c in
  ((9 <=? n)%N && (n <=? 13)%N) || (n =? 32)%N.

(** [bytes.fromhex]: whitespace before a byte is skipped, then two digits
    make the byte; anything else is refused (a blank between the two digits
    of a byte, a lone digit, any other character). *)
Fixpoint fromhex (s : string) : option (list byte) :=
  match s with
  | EmptyString => Some []
  | String a rest =>
      if is_space a then fromhex rest
      else
        match rest with
        | EmptyString => None
        | String b rest' =>
            match hex_pair a b, fromhex rest' with
            | Some x, Some xs => Some (x :: xs)
            | _, _ => None
            end
        end
  end.

Fixpoint hexlify (bs : list byte) : string :=
  match bs with
  | [] => EmptyString
  | b :: rest =>
      let n := Byte.to_N b in
      String (hex_char (n / 16)) (String (hex_char (n mod 16)) (hexlify rest))
  end.

(** [str(oid)]. *)
Definition ObjectId_str (oid : ObjectId) : string := hexlify oid.

Fixpoint all_hex (s : string) : bool :=
  match s with
  | EmptyString => true
  | String c rest => is_hex c && all_hex rest
  end.

(** The identifiers the API documents: 24 hexadecimal digits.  (The length
    is counted in bytes; a string with a character outside ASCII is refused
    either way, having a byte that is no digit.) *)
Definition is_hex24 (s : string) : bool :=
  (String.length s =? 24)%nat && all_hex s.

(** ** Models *)

Definition datetime := Z.   (* microseconds since the epoch, UTC *)

(** BSON keeps a date as whole milliseconds. *)
Definition bson_datetime (t : datetime) : datetime := (1000 * (t / 1000))%Z.

Inductive WorkoutType := predefined | custom.

Definition WorkoutType_eqb (a b : WorkoutType) : bool :=
  match a, b with
  | predefined, predefined | custom, custom => true
  | _, _ => false
  end.


(** The validation of [Literal["predefined", "custom"]]. *)
Definition WorkoutType_of_str (s : string) : option WorkoutType :=
  if String.eqb s "predefined" then Some predefined
  else if String.eqb s "custom" then Some custom
  else None.

Module Exercise.
Record t := mk
  { name : string; sets : Z; reps : string;
    weight : option string; notes : option string }.
End Exercise.

Module WorkoutSplit.
Record t := mk { day : string; exercises : list Exercise.t }.
End WorkoutSplit.

(** The response model. *)
Module Workout.
Record t := mk
  { id : option string; name : string; type : WorkoutType;
    splits : list WorkoutSplit.t; createdAt : option datetime }.
End Workout.

Module WorkoutCreate.
Record t := mk
  { name : string; type : WorkoutType; splits : list WorkoutSplit.t }.
End WorkoutCreate.

Module WorkoutUpdate.
Record t := mk
  { name : option string; splits : option (list WorkoutSplit.t) }.
End WorkoutUpdate.

(** A document of [db.workouts]. *)
Module Document.
Record t := mk
  { _id : ObjectId; name : string; type : WorkoutType;
    splits : list WorkoutSplit.t; createdAt : datetime }.
End Document.

(** A document as the driver sends it to the store, before the [_id] is
    added: what the encoder makes of a dict.  The dicts whose values were
    read from the store, and the literals of the catalog, are written in
    this form at once. *)
Module NewDocument.
Record t := mk
  { name : string; type : WorkoutType;
    splits : list WorkoutSplit.t; createdAt : datetime }.
End NewDocument.

(** The dict that [workout.dict()] gives, with its [createdAt]: the values
    of the request, any integer among them. *)
Module WorkoutDict.
Record t := mk
  { name : string; type : WorkoutType;
    splits : list WorkoutSplit.t; createdAt : datetime }.
End WorkoutDict.

(** An exercise and a split of a JSON body: [weight] and [notes] may be
    missing ([None]), null ([Some None]) or a string; [exercises] may be
    missing. *)
Module ExerciseBody.
Record t := mk
  { name : string; sets : Z; reps : string;
    weight : option (option string); notes : option (option string) }.
End ExerciseBody.

Module SplitBody.
Record t := mk { day : string; exercises : option (list ExerciseBody.t) }.
End SplitBody.

(** The JSON body of POST /workouts before validation: every key may be
    missing, and [type] is any string. *)
Module CreateBody.
Record t := mk
  { name : option string; type : option string;
    splits : option (list SplitBody.t) }.
End CreateBody.

(** ** Exceptions and responses *)

Inductive Exn :=
| HTTPException (status_code : Z) (detail : string)
| InvalidId (oid : string)
| DuplicateKeyError (oid : ObjectId)
| OverflowError.

(** ** The driver's encoder *)

(** An integer that fits in 8 bytes. *)
Definition int64_ok (n : Z) : bool :=
  (-9223372036854775808 <=? n)%Z && (n <=? 9223372036854775807)%Z.

(** Splits that BSON can hold: every [sets] fits in 8 bytes. *)
Definition encodable (splits : list WorkoutSplit.t) : bool :=
  forallb
    (fun s =>
       forallb (fun e => int64_ok (Exercise.sets e))
         (WorkoutSplit.exercises s))
    splits.

(** What [insert_one] can be handed, and the document the encoder makes of
    it, or the error it raises.  The dict of a request carries whatever
    integers passed validation; a document made of the catalog's literals,
    or of splits read from the store, holds integers that fit. *)
Class BsonDocument (A : Type) := bson_encode : A -> Exn + NewDocument.t.

#[global] Instance WorkoutDict_bson : BsonDocument WorkoutDict.t :=
  fun d =>
    if encodable (WorkoutDict.splits d) then
      inr (NewDocument.mk (WorkoutDict.name d) (WorkoutDict.type d)
             (WorkoutDict.splits d) (WorkoutDict.createdAt d))
    else inl OverflowError.

#[global] Instance NewDocument_bson : BsonDocument NewDocument.t :=
  fun d => inr d.

(** [ObjectId(s)] for a [str] argument. *)
Definition ObjectId_of_str (s : string) : Exn + ObjectId :=
  if (String.length s =? 24)%nat then
    match fromhex s with
    | Some bs => inr bs
    | None => inl (InvalidId s)
    end
  else inl (InvalidId s).

(** What a route answers: 200 with a body, the status and detail of an
    [HTTPException], 422 for a body that fails validation, or 500. *)
Inductive Response (A : Type) :=
| OK (body : A)
| Failure (status_code : Z) (detail : string)
| Unprocessable
| ServerError.
Arguments OK {A} body.
Arguments Failure {A} status_code detail.
Arguments Unprocessable {A}.
Arguments ServerError {A}.

Definition status {A} (r : Response A) : Z :=
  match r with
  | OK _ => 200
  | Failure c _ => c
  | Unprocessable => 422
  | ServerError => 500
  end%Z.

(** ** The surroundings *)

Class Runtime := {
  (** what the [n]-th call of [datetime.utcnow()] reads *)
  utcnow : nat -> datetime;
  (** the [n]-th identifier the driver mints for a document without [_id] *)
  ObjectId_generate : nat -> ObjectId;
  ObjectId_generate_length :
    forall n, List.length (ObjectId_generate n) = 12%nat;
  (** [str(e)] *)
  Exn_str : Exn -> string
}.

Record World := mkWorld
  { workouts : list Document.t;   (* db.workouts, in insertion order *)
    clock_reads : nat;            (* calls of datetime.utcnow() so far *)
    oids_minted : nat }.          (* identifiers minted so far *)

(** ** The monad of handlers: state, and exceptions that keep the state *)

Definition M (A : Type) : Type := World -> (Exn + A) * World.

Definition ret {A} (a : A) : M A := fun w => (inr a, w).

Definition raise {A} (e : Exn) : M A := fun w => (inl e, w).

Definition bind {A B} (m : M A) (k : A -> M B) : M B :=
  fun w =>
    match m w with
    | (inr a, w') => k a w'
    | (inl e, w') => (inl e, w')
    end.

(** [try: m  except Exception as e: h e] *)
Definition try_except {A} (m : M A) (h : Exn -> M A) : M A :=
  fun w =>
    match m w with
    | (inr a, w') => (inr a, w')
    | (inl e, w') => h e w'
    end.

Definition lift {A} (r : Exn + A) : M A := fun w => (r, w).

Notation "x <- m ;; k" := (bind m (fun x => k))
  (at level 61, m at next level, right associativity).
Notation "m ;;; k" := (bind m (fun _ => k))
  (at level 61, right associativity).

(** ** The catalog of [initialize_predefined_workouts] *)

Definition ex (name : string) (sets : Z) (reps weight notes : string)
    : Exercise.t :=
  Exercise.mk name sets reps (Some weight) (Some notes).

Definition abc_classico (createdAt : datetime) : NewDocument.t :=
  NewDocument.mk "ABC - Clássico" predefined
    [ WorkoutSplit.mk "A - Peito e Tríceps"
        [ ex "Supino Reto" 4 "8-12" "" "";
          ex "Supino Inclinado" 3 "10-12" "" "";
          ex "Crucifixo" 3 "12-15" "" "";
          ex "Tríceps Testa" 3 "10-12" "" "";
          ex "Tríceps Corda" 3 "12-15" "" "" ];
      WorkoutSplit.mk "B - Costas e Bíceps"
        [ ex "Barra Fixa" 4 "8-10" "" "";
          ex "Remada Curvada" 4 "8-12" "" "";
          ex "Puxada Frontal" 3 "10-12" "" "";
          ex "Rosca Direta" 3 "10-12" "" "";
          ex "Rosca Martelo" 3 "12-15" "" "" ];
      WorkoutSplit.mk "C - Pernas e Ombros"
        [ ex "Agachamento Livre" 4 "8-12" "" "";
          ex "Leg Press" 4 "10-12" "" "";
          ex "Cadeira Extensora" 3 "12-15" "" "";
          ex "Desenvolvimento" 4 "8-12" "" "";
          ex "Elevação Lateral" 3 "12-15" "" "" ] ]
    createdAt.

Definition abcde_avancado (createdAt : datetime) : NewDocument.t :=
  NewDocument.mk "ABCDE - Avançado" predefined
    [ WorkoutSplit.mk "A - Peito"
        [ ex "Supino Reto" 4 "8-10" "" "";
          ex "Supino Inclinado" 4 "8-10" "" "";
          ex "Crucifixo Inclinado" 3 "10-12" "" "";
          ex "Crossover" 3 "12-15" "" "" ];
      WorkoutSplit.mk "B - Costas"
        [ ex "Barra Fixa" 4 "8-10" "" "";
          ex "Remada Curvada" 4 "8-10" "" "";
          ex "Puxada Frontal" 3 "10-12" "" "";
          ex "Remada Baixa" 3 "10-12" "" "" ];
      WorkoutSplit.mk "C - Pernas"
        [ ex "Agachamento Livre" 4 "8-10" "" "";
          ex "Leg Press" 4 "10-12" "" "";
          ex "Cadeira Extensora" 3 "12-15" "" "";
          ex "Mesa Flexora" 3 "12-15" "" "";
          ex "Panturrilha em Pé" 4 "15-20" "" "" ];
      WorkoutSplit.mk "D - Ombros"
        [ ex "Desenvolvimento" 4 "8-10" "" "";
          ex "Elevação Lateral" 4 "12-15" "" "";
          ex "Elevação Frontal" 3 "12-15" "" "";
          ex "Crucifixo Inverso" 3 "12-15" "" "" ];
      WorkoutSplit.mk "E - Braços"
        [ ex "Rosca Direta" 4 "8-12" "" "";
          ex "Rosca Alternada" 3 "10-12" "" "";
          ex "Tríceps Testa" 4 "8-12" "" "";
          ex "Tríceps Corda" 3 "12-15" "" "" ] ]
    createdAt.

Definition push_pull_legs (createdAt : datetime) : NewDocument.t :=
  NewDocument.mk "Push/Pull/Legs" predefined
    [ WorkoutSplit.mk "Push - Empurrar"
        [ ex "Supino Reto" 4 "8-10" "" "";
          ex "Desenvolvimento" 4 "8-10" "" "";
          ex "Supino Inclinado" 3 "10-12" "" "";
          ex "Elevação Lateral" 3 "12-15" "" "";
          ex "Tríceps Corda" 3 "12-15" "" "" ];
      WorkoutSplit.mk "Pull - Puxar"
        [ ex "Barra Fixa" 4 "8-10" "" "";
          ex "Remada Curvada" 4 "8-10" "" "";
          ex "Puxada Frontal" 3 "10-12" "" "";
          ex "Rosca Direta" 3 "10-12" "" "";
          ex "Rosca Martelo" 3 "12-15" "" "" ];
      WorkoutSplit.mk "Legs - Pernas"
        [ ex "Agachamento Livre" 4 "8-10" "" "";
          ex "Leg Press" 4 "10-12" "" "";
          ex "Cadeira Extensora" 3 "12-15" "" "";
          ex "Mesa Flexora" 3 "12-15" "" "";
          ex "Panturrilha" 4 "15-20" "" "" ] ]
    createdAt.

Definition upper_lower (createdAt : datetime) : NewDocument.t :=
  NewDocument.mk "Upper/Lower" predefined
    [ WorkoutSplit.mk "Upper - Parte Superior"
        [ ex "Supino Reto" 4 "8-10" "" "";
          ex "Remada Curvada" 4 "8-10" "" "";
          ex "Desenvolvimento" 3 "10-12" "" "";
          ex "Puxada Frontal" 3 "10-12" "" "";
          ex "Rosca Direta" 3 "10-12" "" "";
          ex "Tríceps Corda" 3 "12-15" "" "" ];
      WorkoutSplit.mk "Lower - Parte Inferior"
        [ ex "Agachamento Livre" 4 "8-10" "" "";
          ex "Leg Press" 4 "10-12" "" "";
          ex "Stiff" 3 "10-12" "" "";
          ex "Cadeira Extensora" 3 "12-15" "" "";
          ex "Mesa Flexora" 3 "12-15" "" "";
          ex "Panturrilha" 4 "15-20" "" "" ] ]
    createdAt.

Section Service.

Context {rt : Runtime}.

(** ** The driver's operations on [db.workouts] *)

Definition has_id (oid : ObjectId) (d : Document.t) : bool :=
  oid_eqb (Document._id d) oid.

Definition has_type (t : WorkoutType) (d : Document.t) : bool :=
  WorkoutType_eqb (Document.type d) t.

(** [datetime.utcnow()] *)
Definition datetime_utcnow : M datetime :=
  fun w =>
    (inr (utcnow (clock_reads w)),
     mkWorld (workouts w) (S (clock_reads w)) (oids_minted w)).

(** [find_one({"_id": oid})] *)
Definition find_one (oid : ObjectId) : M (option Document.t) :=
  fun w => (inr (find (has_id oid) (workouts w)), w).

(** [find({"type": t}).to_list(100)] *)
Definition find_type (t : WorkoutType) : M (list Document.t) :=
  fun w => (inr (firstn 100 (filter (has_type t) (workouts w))), w).

(** [count_documents({"type": t})] *)
Definition count_documents (t : WorkoutType) : M nat :=
  fun w => (inr (List.length (filter (has_type t) (workouts w))), w).

Definition with_id (oid : ObjectId) (d : NewDocument.t) : Document.t :=
  Document.mk oid (NewDocument.name d) (NewDocument.type d)
    (NewDocument.splits d) (bson_datetime (NewDocument.createdAt d)).

(** [insert_one(d)]: the driver mints the [_id] and encodes the document;
    the unique index on [_id] refuses one that is already there.  Returns
    [inserted_id]. *)
Definition insert_one {A} {E : BsonDocument A} (d : A) : M ObjectId :=
  fun w =>
    let oid := ObjectId_generate (oids_minted w) in
    let minted := mkWorld (workouts w) (clock_reads w) (S (oids_minted w)) in
    match bson_encode d with
    | inl e => (inl e, minted)
    | inr doc =>
        if existsb (has_id oid) (workouts w) then
          (inl (DuplicateKeyError oid), minted)
        else
          (inr oid,
           mkWorld (workouts w ++ [with_id oid doc]) (clock_reads w)
             (S (oids_minted w)))
    end.

(** [insert_many(ds)]: ordered, it stops at the first document refused. *)
Fixpoint insert_many (ds : list NewDocument.t) : M (list ObjectId) :=
  match ds with
  | [] => ret []
  | d :: rest =>
      oid <- insert_one d ;;
      oids <- insert_many rest ;;
      ret (oid :: oids)
  end.

(** One key of a [$set] document. *)
Inductive SetField :=
| set_name (v : string)
| set_splits (v : list WorkoutSplit.t).

Definition apply_set (d : Document.t) (f : SetField) : Document.t :=
  match f with
  | set_name v =>
      Document.mk (Document._id d) v (Document.type d) (Document.splits d)
        (Document.createdAt d)
  | set_splits v =>
      Document.mk (Document._id d) (Document.name d) (Document.type d) v
        (Document.createdAt d)
  end.

Fixpoint update_first (oid : ObjectId) (fs : list SetField)
    (ds : list Document.t) : list Document.t * nat :=
  match ds with
  | [] => ([], 0%nat)
  | d :: rest =>
      if has_id oid d then (fold_left apply_set fs d :: rest, 1%nat)
      else let (rest', n) := update_first oid fs rest in (d :: rest', n)
  end.

(** A [$set] document that BSON can hold. *)
Definition set_encodable (fs : list SetField) : bool :=
  forallb
    (fun f =>
       match f with
       | set_name _ => true
       | set_splits v => encodable v
       end)
    fs.

(** [update_one({"_id": oid}, {"$set": fs})]: the driver encodes the update
    before anything is sent; returns [matched_count]. *)
Definition update_one (oid : ObjectId) (fs : list SetField) : M nat :=
  fun w =>
    if set_encodable fs then
      let (ds, n) := update_first oid fs (workouts w) in
      (inr n, mkWorld ds (clock_reads w) (oids_minted w))
    else (inl OverflowError, w).

Fixpoint delete_first (oid : ObjectId) (ds : list Document.t)
    : list Document.t * nat :=
  match ds with
  | [] => ([], 0%nat)
  | d :: rest =>
      if has_id oid d then (rest, 1%nat)
      else let (rest', n) := delete_first oid rest in (d :: rest', n)
  end.

(** [delete_one({"_id": oid})]; returns [deleted_count]. *)
Definition delete_one (oid : ObjectId) : M nat :=
  fun w =>
    let (ds, n) := delete_first oid (workouts w) in
    (inr n, mkWorld ds (clock_reads w) (oids_minted w)).

(** ** server.py *)

Definition serialize_workout (workout : option Document.t)
    : option Workout.t :=
  match workout with
  | Some d =>
      Some (Workout.mk (Some (ObjectId_str (Document._id d)))
              (Document.name d) (Document.type d) (Document.splits d)
              (Some (Document.createdAt d)))
  | None => None
  end.

Definition not_found : Exn := HTTPException 404 "Treino não encontrado".

Definition bad_request (e : Exn) : Exn := HTTPException 400 (Exn_str e).

Definition get_predefined_workouts : M (list (option Workout.t)) :=
  workouts <- find_type predefined ;;
  ret (map (fun w => serialize_workout (Some w)) workouts).

Definition get_workout (workout_id : string) : M (option Workout.t) :=
  try_except
    (oid <- lift (ObjectId_of_str workout_id) ;;
     workout <- find_one oid ;;
     match workout with
     | None => raise not_found
     | Some _ => ret (serialize_workout workout)
     end)
    (fun e => raise (bad_request e)).

Definition create_workout (workout : WorkoutCreate.t)
    : M (option Workout.t) :=
  now <- datetime_utcnow ;;
  let workout_dict :=
    WorkoutDict.mk (WorkoutCreate.name workout) (WorkoutCreate.type workout)
      (WorkoutCreate.splits workout) now in
  inserted_id <- insert_one workout_dict ;;
  created_workout <- find_one inserted_id ;;
  ret (serialize_workout created_workout).

(** [{k: v for k, v in workout_update.dict().items() if v is not None}] *)
Definition update_data (workout_update : WorkoutUpdate.t) : list SetField :=
  match WorkoutUpdate.name workout_update with
  | Some v => [set_name v]
  | None => []
  end ++
  match WorkoutUpdate.splits workout_update with
  | Some v => [set_splits v]
  | None => []
  end.

Definition nothing_to_update : Exn :=
  HTTPException 400 "Nenhum dado para atualizar".

Definition update_workout (workout_id : string)
    (workout_update : WorkoutUpdate.t) : M (option Workout.t) :=
  try_except
    (match update_data workout_update with
     | [] => raise nothing_to_update
     | fs =>
         oid <- lift (ObjectId_of_str workout_id) ;;
         matched_count <- update_one oid fs ;;
         if (matched_count =? 0)%nat then raise not_found
         else
           oid' <- lift (ObjectId_of_str workout_id) ;;
           updated_workout <- find_one oid' ;;
           ret (serialize_workout updated_workout)
     end)
    (fun e => raise (bad_request e)).

Definition deleted_message : string := "Treino deletado com sucesso".

Definition delete_workout (workout_id : string) : M string :=
  try_except
    (oid <- lift (ObjectId_of_str workout_id) ;;
     deleted_count <- delete_one oid ;;
     if (deleted_count =? 0)%nat then raise not_found
     else ret deleted_message)
    (fun e => raise (bad_request e)).

Definition copy_workout (workout_id new_name : string)
    : M (option Workout.t) :=
  try_except
    (oid <- lift (ObjectId_of_str workout_id) ;;
     original <- find_one oid ;;
     match original with
     | None => raise not_found
     | Some original =>
         now <- datetime_utcnow ;;
         let new_workout :=
           NewDocument.mk new_name custom (Document.splits original) now in
         inserted_id <- insert_one new_workout ;;
         created_workout <- find_one inserted_id ;;
         ret (serialize_workout created_workout)
     end)
    (fun e => raise (bad_request e)).

(** The startup hook.  The four dicts are built first, each reading the clock
    for its own [createdAt]; then they are inserted together.  (The log line
    that follows has no effect on the collection.) *)
Definition initialize_predefined_workouts : M unit :=
  count <- count_documents predefined ;;
  if (count =? 0)%nat then
    t1 <- datetime_utcnow ;;
    t2 <- datetime_utcnow ;;
    t3 <- datetime_utcnow ;;
    t4 <- datetime_utcnow ;;
    let predefined_workouts :=
      [abc_classico t1; abcde_avancado t2; push_pull_legs t3; upper_lower t4]
    in
    insert_many predefined_workouts ;;;
    ret tt
  else ret tt.

(** ** The framework around the handlers *)

(** [weight: Optional[str] = ""]: a missing key takes the default, null
    stays null. *)
Definition with_default (v : option (option string)) : option string :=
  match v with
  | None => Some ""
  | Some v => v
  end.

Definition Exercise_validate (e : ExerciseBody.t) : Exercise.t :=
  Exercise.mk (ExerciseBody.name e) (ExerciseBody.sets e)
    (ExerciseBody.reps e) (with_default (ExerciseBody.weight e))
    (with_default (ExerciseBody.notes e)).

(** [exercises: List[Exercise] = []] *)
Definition WorkoutSplit_validate (s : SplitBody.t) : WorkoutSplit.t :=
  WorkoutSplit.mk (SplitBody.day s)
    (match SplitBody.exercises s with
     | None => []
     | Some es => map Exercise_validate es
     end).

(** Request validation against [WorkoutCreate]: the three fields are
    required, and [type] has to be one of the two literals. *)
Definition WorkoutCreate_validate (body : CreateBody.t)
    : option WorkoutCreate.t :=
  match CreateBody.name body, CreateBody.type body, CreateBody.splits body with
  | Some name, Some type, Some splits =>
      match WorkoutType_of_str type with
      | Some t =>
          Some (WorkoutCreate.mk name t (map WorkoutSplit_validate splits))
      | None => None
      end
  | _, _, _ => None
  end.

(** What the client gets for a handler's outcome: an [HTTPException] is
    answered with its own status, any other exception with 500, and a value
    that does not fit the response model with 500 as well. *)
Definition respond {A} (r : Exn + A) : Response A :=
  match r with
  | inr a => OK a
  | inl (HTTPException c d) => Failure c d
  | inl _ => ServerError
  end.

Definition respond_model {A} (r : Exn + option A) : Response A :=
  match r with
  | inr (Some a) => OK a
  | inr None => ServerError
  | inl (HTTPException c d) => Failure c d
  | inl _ => ServerError
  end.

Definition route {A B} (f : Exn + A -> Response B) (m : M A)
    : World -> Response B * World :=
  fun w => let (r, w') := m w in (f r, w').

Definition GET_workout (workout_id : string) :=
  route respond_model (get_workout workout_id).

Definition POST_workouts (body : CreateBody.t)
    : World -> Response Workout.t * World :=
  fun w =>
    match WorkoutCreate_validate body with
    | None => (Unprocessable, w)
    | Some workout => route respond_model (create_workout workout) w
    end.

Definition PUT_workout (workout_id : string) (u : WorkoutUpdate.t) :=
  route respond_model (update_workout workout_id u).

Definition DELETE_workout (workout_id : string) :=
  route respond (delete_workout workout_id).

Definition POST_workout_copy (workout_id new_name : string) :=
  route respond_model (copy_workout workout_id new_name).

(** ** Fresh identifiers *)

(** The next [n] identifiers the driver mints, from the [k]-th on, are taken
    neither by [taken] nor by one another. *)
Fixpoint fresh_ids (n k : nat) (taken : list ObjectId) : bool :=
  match n with
  | O => true
  | S n' =>
      let oid := ObjectId_generate k in
      negb (existsb (fun i => oid_eqb i oid) taken)
      && fresh_ids n' (S k) (taken ++ [oid])
  end.

Definition fresh (n : nat) (w : World) : bool :=
  fresh_ids n (oids_minted w) (map Document._id (workouts w)).

(** The documents that inserting [ds] adds when the [k]-th identifier is the
    next one. *)
Fixpoint stored (k : nat) (ds : list NewDocument.t) : list Document.t :=
  match ds with
  | [] => []
  | d :: rest => with_id (ObjectId_generate k) d :: stored (S k) rest
  end.

(** ** Seeding, as a specification reads it *)

Definition no_predefined (w : World) : bool :=
  (List.length (filter (has_type predefined) (workouts w)) =? 0)%nat.

(** The four dicts of the catalog when the clock is read for the [c]-th time
    first. *)
Definition catalog (c : nat) : list NewDocument.t :=
  [abc_classico (utcnow c); abcde_avancado (utcnow (1 + c));
   push_pull_legs (utcnow (2 + c)); upper_lower (utcnow (3 + c))].

(** The documents that seeding [w] adds. *)
Definition seeded (w : World) : list Document.t :=
  stored (oids_minted w) (catalog (clock_reads w)).

(** Running the startup hook once more. *)
Definition reseed (w : World) : World :=
  snd (initialize_predefined_workouts w).

End Service.

(** ** A runtime to evaluate the service on *)

Definition sample_oid (n : nat) : ObjectId :=
  repeat x00 11 ++
  [match Byte.of_N (N.of_nat n mod 256) with Some b => b | None => x00 end].

(** [str(e)] as the libraries word it: Starlette's "status: detail" and
    bson's text around the [repr] of the string (written here for a string
    that its [repr] only puts between quotes).  The duplicate-key text is
    the server's and names the database; only its head is kept. *)
Definition sample_str (e : Exn) : string :=
  match e with
  | HTTPException status_code detail =>
      NilZero.string_of_int (Z.to_int status_code) ++ ": " ++ detail
  | InvalidId oid =>
      "'" ++ oid ++ "' is not a valid ObjectId, it must be a 12-byte input"
      ++ " or a 24-character hex string"
  | DuplicateKeyError _ => "E11000 duplicate key error"
  | OverflowError => "MongoDB can only handle up to 8-byte ints"
  end.

#[local] Instance sample_runtime : Runtime :=
  {| utcnow := fun n => (1700000000000000 + 1234567 * Z.of_nat n)%Z;
     ObjectId_generate := sample_oid;
     ObjectId_generate_length := fun n => eq_refl;
     Exn_str := sample_str |}.

Definition empty_world : World := mkWorld [] 0 0.

Definition zeros24 : string := "000000000000000000000000".

(** The request of the specification's scenario: the exercise carries
    neither weight nor notes. *)
Definition sample_body : CreateBody.t :=
  CreateBody.mk (Some "Test") (Some "custom")
    (Some [SplitBody.mk "A"
             (Some [ExerciseBody.mk "Squat" 3 "10" None None])]).


(** ** The listings sorted by date, and the service as a whole *)

(** [sort("createdAt", -1)]: newest first.  (Documents of one date are kept
    in insertion order here; nothing below depends on that.) *)
Fixpoint insert_newest (d : Document.t) (ds : list Document.t)
    : list Document.t :=
  match ds with
  | [] => [d]
  | x :: rest =>
      if (Document.createdAt x <=? Document.createdAt d)%Z then d :: ds
      else x :: insert_newest d rest
  end.

Definition sort_newest (ds : list Document.t) : list Document.t :=
  fold_right insert_newest [] ds.

Section Listings.

Context {rt : Runtime}.

(** [find().sort("createdAt", -1).to_list(100)] *)
Definition find_newest : M (list Document.t) :=
  fun w => (inr (firstn 100 (sort_newest (workouts w))), w).

(** [find({"type": t}).sort("createdAt", -1).to_list(100)] *)
Definition find_type_newest (t : WorkoutType) : M (list Document.t) :=
  fun w =>
    (inr (firstn 100 (sort_newest (filter (has_type t) (workouts w)))), w).

Definition get_workouts : M (list (option Workout.t)) :=
  workouts <- find_newest ;;
  ret (map (fun w => serialize_workout (Some w)) workouts).

Definition get_custom_workouts : M (list (option Workout.t)) :=
  workouts <- find_type_newest custom ;;
  ret (map (fun w => serialize_workout (Some w)) workouts).

(** One event of the service's life: the startup hook or a request. *)
Inductive Request :=
| Startup
| GetAll
| GetPredefined
| GetCustom
| GetOne (workout_id : string)
| Create (body : CreateBody.t)
| Update (workout_id : string) (workout_update : WorkoutUpdate.t)
| Delete (workout_id : string)
| Copy (workout_id new_name : string).

(** The world after an event. *)
Definition serve (r : Request) (w : World) : World :=
  match r with
  | Startup => reseed w
  | GetAll => snd (get_workouts w)
  | GetPredefined => snd (get_predefined_workouts w)
  | GetCustom => snd (get_custom_workouts w)
  | GetOne workout_id => snd (GET_workout workout_id w)
  | Create body => snd (POST_workouts body w)
  | Update workout_id u => snd (PUT_workout workout_id u w)
  | Delete workout_id => snd (DELETE_workout workout_id w)
  | Copy workout_id new_name => snd (POST_workout_copy workout_id new_name w)
  end.

Definition serve_all (rs : list Request) (w : World) : World :=
  fold_left (fun w r => serve r w) rs w.

(** What the store guarantees of the identifiers it holds: no two documents
    share one, and each is 12 bytes. *)
Definition unique_ids (w : World) : Prop :=
  NoDup (map Document._id (workouts w)) /\
  Forall (fun oid => List.length oid = 12%nat)
    (map Document._id (workouts w)).

(** Newest first. *)
Definition newest_first (ds : list Document.t) : Prop :=
  StronglySorted
    (fun a b => (Document.createdAt b <= Document.createdAt a)%Z) ds.

(** A relation between the world before and after holds of a computation. *)
Definition respects (R : World -> World -> Prop) {A} (m : M A) : Prop :=
  forall w, R w (snd (m w)).

(** The collection only grew: the documents it had are all there, as they
    were and where they were. *)
Definition grows (w w' : World) : Prop :=
  exists added, workouts w' = workouts w ++ added.

(** The guarantee on the identifiers carries over. *)
Definition keeps_unique_ids (w w' : World) : Prop :=
  unique_ids w -> unique_ids w'.

(** ** backend_test.py, error cases *)

(** [result["success"]]: [response.status_code < 400]. *)
Definition success {A} (r : Response A) : bool := (status r <? 400)%Z.

Definition invalid_workout : CreateBody.t :=
  CreateBody.mk (Some "") (Some "invalid_type") (Some []).

(** [test_error_cases] against this service, the requests reaching it and
    its answers reaching the test.  (Both paths of the two fetches are
    routed to [get_workout]: neither is "predefined" or "custom".) *)
Definition test_error_cases : World -> bool * World :=
  fun w =>
    let (result, w1) := GET_workout "invalid_id_format" w in
    if success result
       || negb ((status result =? 400)%Z || (status result =? 404)%Z)
    then (false, w1)
    else
      let (result, w2) := GET_workout "507f1f77bcf86cd799439011" w1 in
      if success result || negb (status result =? 404)%Z then (false, w2)
      else
        let (result, w3) := POST_workouts invalid_workout w2 in
        if success result then (false, w3) else (true, w3).

End Listings.

(** A short life of the service. *)
Definition sample_events : list Request :=
  [Startup; Copy zeros24 "X"; Create sample_body;
   Update "000000000000000000000004" (WorkoutUpdate.mk (Some "Y") None);
   Delete zeros24; Startup; GetAll].

(** * Properties *)

(** ** Identifiers and their text form *)

Lemma oid_eqb_eq (a b : ObjectId) : oid_eqb a b = true <-> a = b.
Proof.
  unfold oid_eqb. destruct (list_eq_dec byte_eq_dec a b); split; congruence.
Qed.

Lemma oid_eqb_refl (a : ObjectId) : oid_eqb a a = true.
Proof. now apply oid_eqb_eq. Qed.

Lemma oid_eqb_neq (a b : ObjectId) : oid_eqb a b = false <-> a <> b.
Proof.
  unfold oid_eqb. destruct (list_eq_dec byte_eq_dec a b); split; congruence.
Qed.

Lemma hex_pair_of_byte (b : byte) :
  hex_pair (hex_char (Byte.to_N b / 16)) (hex_char (Byte.to_N b mod 16))
  = Some b.
Proof. destruct b; reflexivity. Qed.

Lemma hex_char_not_space (b : byte) :
  is_space (hex_char (Byte.to_N b / 16)) = false.
Proof. destruct b; reflexivity. Qed.

Lemma fromhex_hexlify (bs : list byte) : fromhex (hexlify bs) = Some bs.
Proof.
  induction bs as [|b bs IH]; [reflexivity|].
  cbn [hexlify fromhex].
  now rewrite hex_char_not_space, hex_pair_of_byte, IH.
Qed.

Lemma length_hexlify (bs : list byte) :
  String.length (hexlify bs) = (2 * List.length bs)%nat.
Proof.
  induction bs as [|b bs IH]; cbn [hexlify String.length List.length]; lia.
Qed.

Lemma ObjectId_of_str_str (oid : ObjectId) :
  List.length oid = 12%nat -> ObjectId_of_str (ObjectId_str oid) = inr oid.
Proof.
  intros L. unfold ObjectId_of_str, ObjectId_str.
  now rewrite length_hexlify, L, fromhex_hexlify.
Qed.

Lemma hex_value_lt (c : ascii) (n : N) : hex_value c = Some n -> (n < 16)%N.
Proof.
  unfold hex_value.
  repeat match goal with
         | |- context [if ?b then _ else _] => destruct b eqn:?
         end; intros [= <-];
    repeat match goal with
           | H : (_ && _) = true |- _ => apply andb_prop in H; destruct H
           | H : (_ <=? _)%N = true |- _ => apply N.leb_le in H
           end; lia.
Qed.

Lemma hex_pair_is_hex (a b : ascii) :
  hex_pair a b <> None <-> is_hex a = true /\ is_hex b = true.
Proof.
  unfold hex_pair, is_hex.
  destruct (hex_value a) as [h|] eqn:Ha, (hex_value b) as [l|] eqn:Hb;
    try (split; [congruence | intros []; congruence]).
  split; [easy | intros _ E].
  apply Byte.of_N_None_iff in E.
  apply hex_value_lt in Ha, Hb. lia.
Qed.

(** A digit is no whitespace. *)
Lemma is_hex_not_space (c : ascii) : is_hex c = true -> is_space c = false.
Proof.
  unfold is_hex, hex_value, is_space. set (n := N_of_ascii c).
  assert (G : forall lo hi, ((lo <=? n)%N && (n <=? hi)%N) = true ->
              (48 <= lo)%N ->
              ((9 <=? n)%N && (n <=? 13)%N) || (n =? 32)%N = false).
  { intros lo hi H Hlo. apply andb_prop in H as [A B].
    apply N.leb_le in A. apply orb_false_iff. split.
    - apply andb_false_iff. right. apply N.leb_gt. lia.
    - apply N.eqb_neq. lia. }
  destruct ((48 <=? n)%N && (n <=? 57)%N) eqn:H1;
    [intros _; apply (G _ _ H1); lia|].
  destruct ((97 <=? n)%N && (n <=? 102)%N) eqn:H2;
    [intros _; apply (G _ _ H2); lia|].
  destruct ((65 <=? n)%N && (n <=? 70)%N) eqn:H3;
    [intros _; apply (G _ _ H3); lia | discriminate].
Qed.

(** [fromhex] gives a byte for each two digits it reads; a string it reads
    that is twice as long as the bytes it gives holds digits only. *)
Lemma fromhex_Some (s : string) (bs : list byte) :
  fromhex s = Some bs ->
  (2 * List.length bs <= String.length s)%nat /\
  (String.length s = (2 * List.length bs)%nat -> all_hex s = true).
Proof.
  assert (H : forall n s, (String.length s <= n)%nat ->
              forall bs, fromhex s = Some bs ->
              (2 * List.length bs <= String.length s)%nat /\
              (String.length s = (2 * List.length bs)%nat ->
               all_hex s = true)).
  { clear s bs. induction n as [|n IH]; intros [|a rest] L bs;
      cbn [fromhex String.length all_hex List.length] in *;
      try (intros [= <-]; cbn; split; [lia | reflexivity]); [lia|].
    destruct (is_space a).
    - intros F. destruct (IH rest ltac:(lia) bs F) as [Hle _].
      split; lia.
    - destruct rest as [|b rest']; [discriminate|].
      destruct (hex_pair a b) as [x|] eqn:Hp; [|discriminate].
      destruct (fromhex rest') as [xs|] eqn:F; [|discriminate].
      intros [= <-]. cbn [String.length List.length all_hex] in *.
      destruct (IH rest' ltac:(lia) xs F) as [Hle Hall].
      assert (Hab : hex_pair a b <> None) by congruence.
      apply hex_pair_is_hex in Hab as [-> ->].
      split; [lia|]. intros E. now rewrite Hall by lia. }
  apply (H (String.length s)). lia.
Qed.

Lemma fromhex_all_hex (s : string) (n : nat) :
  all_hex s = true -> String.length s = (2 * n)%nat ->
  exists bs, fromhex s = Some bs /\ List.length bs = n.
Proof.
  assert (H : forall m s n, (String.length s <= m)%nat ->
              all_hex s = true -> String.length s = (2 * n)%nat ->
              exists bs, fromhex s = Some bs /\ List.length bs = n).
  { clear s n. induction m as [|m IH]; intros [|a rest] n L;
      cbn [fromhex String.length all_hex] in *;
      try (intros _ E; exists []; split; [reflexivity | cbn; lia]); [lia|].
    intros Hall E. apply andb_prop in Hall as [Ha Hall].
    rewrite (is_hex_not_space _ Ha).
    destruct rest as [|b rest']; cbn [String.length all_hex] in *; [lia|].
    apply andb_prop in Hall as [Hb Hall].
    destruct n as [|n]; [lia|].
    destruct (IH rest' n ltac:(lia) Hall ltac:(lia)) as (bs & -> & Hlen).
    destruct (hex_pair a b) as [x|] eqn:Hp.
    - exists (x :: bs). cbn [List.length]. now rewrite Hlen.
    - exfalso. now apply (proj2 (hex_pair_is_hex a b)). }
  apply (H (String.length s)). lia.
Qed.

(** [ObjectId(s)] gives 12 bytes exactly on the 24-digit strings; on any
    other string it raises [InvalidId] or, the string being 24 characters
    with whitespace among them, gives fewer bytes. *)
Lemma ObjectId_of_str_valid (s : string) :
  is_hex24 s = true <->
  exists oid, ObjectId_of_str s = inr oid /\ List.length oid = 12%nat.
Proof.
  unfold is_hex24, ObjectId_of_str. split.
  - intros H. apply andb_prop in H as [L Hall]. rewrite L.
    apply Nat.eqb_eq in L.
    destruct (fromhex_all_hex s 12 Hall L) as (bs & -> & Hlen). now exists bs.
  - intros (oid & E & Hlen).
    destruct (String.length s =? 24)%nat eqn:L; [|discriminate].
    destruct (fromhex s) as [bs|] eqn:F; [|discriminate].
    injection E as ->. apply Nat.eqb_eq in L.
    apply fromhex_Some in F as [_ Hall]. cbn [andb]. apply Hall. lia.
Qed.



Section ServiceProperties.

Context {rt : Runtime}.

(** ** What each handler computes *)

Lemma get_workout_run (workout_id : string) (w : World) :
  get_workout workout_id w =
  match ObjectId_of_str workout_id with
  | inl e => (inl (bad_request e), w)
  | inr oid =>
      match find (has_id oid) (workouts w) with
      | None => (inl (bad_request not_found), w)
      | Some d => (inr (serialize_workout (Some d)), w)
      end
  end.
Proof.
  unfold get_workout, try_except, bind, lift, find_one, raise, ret.
  destruct (ObjectId_of_str workout_id) as [e|oid]; [reflexivity|].
  now destruct (find (has_id oid) (workouts w)).
Qed.

Lemma delete_workout_run (workout_id : string) (w : World) :
  delete_workout workout_id w =
  match ObjectId_of_str workout_id with
  | inl e => (inl (bad_request e), w)
  | inr oid =>
      let (ds, n) := delete_first oid (workouts w) in
      let w' := mkWorld ds (clock_reads w) (oids_minted w) in
      if (n =? 0)%nat then (inl (bad_request not_found), w')
      else (inr deleted_message, w')
  end.
Proof.
  unfold delete_workout, try_except, bind, lift, delete_one, raise, ret.
  destruct (ObjectId_of_str workout_id) as [e|oid]; [reflexivity|].
  destruct (delete_first oid (workouts w)) as [ds n].
  now destruct (n =? 0)%nat.
Qed.

Lemma update_workout_empty (workout_id : string) (w : World) :
  update_workout workout_id (WorkoutUpdate.mk None None) w
  = (inl (bad_request nothing_to_update), w).
Proof. reflexivity. Qed.

Lemma update_workout_invalid (workout_id : string) (u : WorkoutUpdate.t)
    (w : World) :
  ObjectId_of_str workout_id = inl (InvalidId workout_id) ->
  update_workout workout_id u w =
  (inl (bad_request
          match update_data u with
          | [] => nothing_to_update
          | _ => InvalidId workout_id
          end), w).
Proof.
  intros E. unfold update_workout, try_except, bind, lift, raise.
  destruct (update_data u); [reflexivity|]. now rewrite E.
Qed.


(** ** Identifiers that match nothing *)

Lemma get_workout_missing (workout_id : string) (oid : ObjectId) (w : World) :
  ObjectId_of_str workout_id = inr oid ->
  find (has_id oid) (workouts w) = None ->
  GET_workout workout_id w = (Failure 400 (Exn_str not_found), w).
Proof.
  intros E F. unfold GET_workout, route. now rewrite get_workout_run, E, F.
Qed.

Lemma delete_first_missing (oid : ObjectId) (ds : list Document.t) :
  find (has_id oid) ds = None -> delete_first oid ds = (ds, 0%nat).
Proof.
  induction ds as [|d ds IH]; [reflexivity|]. cbn [find delete_first].
  destruct (has_id oid d); [discriminate|]. intros F. now rewrite (IH F).
Qed.

Lemma delete_workout_missing (workout_id : string) (oid : ObjectId)
    (w : World) :
  ObjectId_of_str workout_id = inr oid ->
  find (has_id oid) (workouts w) = None ->
  DELETE_workout workout_id w = (Failure 400 (Exn_str not_found), w).
Proof.
  intros E F. unfold DELETE_workout, route.
  rewrite delete_workout_run, E, (delete_first_missing _ _ F).
  now destruct w.
Qed.

Lemma find_has_id (oid : ObjectId) (ds : list Document.t) (d : Document.t) :
  find (has_id oid) ds = Some d -> Document._id d = oid.
Proof. intros F. apply find_some in F as [_ F]. now apply oid_eqb_eq. Qed.

Lemma delete_first_found (oid : ObjectId) (ds : list Document.t) :
  NoDup (map Document._id ds) ->
  find (has_id oid) ds <> None ->
  snd (delete_first oid ds) = 1%nat /\
  find (has_id oid) (fst (delete_first oid ds)) = None.
Proof.
  induction ds as [|d ds IH]; [easy|].
  cbn [map find delete_first]. intros ND F. inversion_clear ND as [|? ? Hd ND'].
  destruct (has_id oid d) eqn:Hid.
  - cbn [fst snd]. split; [reflexivity|].
    destruct (find (has_id oid) ds) as [x|] eqn:Fx; [|reflexivity].
    exfalso. apply Hd. apply oid_eqb_eq in Hid. rewrite Hid.
    rewrite <- (find_has_id _ _ _ Fx). apply in_map.
    now apply find_some in Fx.
  - destruct (IH ND' F) as [Hn Hf].
    destruct (delete_first oid ds) as [ds' n]. cbn [fst snd find] in *.
    now rewrite Hid.
Qed.

(** C1.  Fetching a well-formed identifier that matches no stored workout
    is answered with 400, not 404: the handler raises its 404 inside the
    [try] whose [except Exception] turns every exception into a 400, with
    [str] of the 404 as the detail. *)
Theorem get_missing_answers_400 (workout_id : string) (w : World) :
  is_hex24 workout_id = true ->
  (forall oid, ObjectId_of_str workout_id = inr oid ->
               find (has_id oid) (workouts w) = None) ->
  GET_workout workout_id w
  = (Failure 400 (Exn_str (HTTPException 404 "Treino não encontrado")), w) /\
  status (fst (GET_workout workout_id w)) <> 404%Z.
Proof.
  intros Hwf F.
  apply ObjectId_of_str_valid in Hwf as (oid & E & _).
  rewrite (get_workout_missing _ _ _ E (F oid E)).
  split; [reflexivity | discriminate].
Qed.

(** C7.  Deleting a well-formed identifier that matches nothing is answered
    with 400, not 404.  Deleting a stored workout succeeds and removes it;
    fetching the same identifier afterwards is answered with 400 as well
    (the 404 of the fetch meets the same [except Exception]). *)
Theorem delete_then_get_answers_400 (workout_id : string) (oid : ObjectId)
    (w : World) :
  ObjectId_of_str workout_id = inr oid ->
  NoDup (map Document._id (workouts w)) ->
  let w' := snd (DELETE_workout workout_id w) in
  (find (has_id oid) (workouts w) = None ->
   DELETE_workout workout_id w
   = (Failure 400 (Exn_str (HTTPException 404 "Treino não encontrado")), w)) /\
  (find (has_id oid) (workouts w) <> None ->
   fst (DELETE_workout workout_id w) = OK deleted_message /\
   find (has_id oid) (workouts w') = None /\
   GET_workout workout_id w'
   = (Failure 400 (Exn_str (HTTPException 404 "Treino não encontrado")), w')).
Proof.
  intros E ND w'. split.
  - now apply delete_workout_missing.
  - intros F. destruct (delete_first_found oid _ ND F) as [Hn Hf].
    assert (R : DELETE_workout workout_id w
                = (OK deleted_message,
                   mkWorld (fst (delete_first oid (workouts w)))
                     (clock_reads w) (oids_minted w))).
    { unfold DELETE_workout, route. rewrite delete_workout_run, E.
      destruct (delete_first oid (workouts w)) as [ds n].
      cbn [fst snd] in *. now subst n. }
    subst w'. rewrite R. cbn [fst snd workouts].
    split; [reflexivity|]. split; [exact Hf|].
    now apply (get_workout_missing _ oid).
Qed.

(** ** Updates *)

(** C6.  An update that carries neither a name nor splits is answered with
    400, the detail being [str] of the handler's "Nenhum dado para
    atualizar" exception; nothing is written, whatever the identifier and
    the collection. *)
Theorem update_without_fields_is_bad_request (workout_id : string)
    (w : World) :
  PUT_workout workout_id (WorkoutUpdate.mk None None) w
  = (Failure 400 (Exn_str (HTTPException 400 "Nenhum dado para atualizar")),
     w).
Proof.
  unfold PUT_workout, route. now rewrite update_workout_empty.
Qed.

(** [$set] never touches [_id], [type] or [createdAt]. *)
Lemma apply_sets_frame (fs : list SetField) (d : Document.t) :
  Document._id (fold_left apply_set fs d) = Document._id d /\
  Document.type (fold_left apply_set fs d) = Document.type d /\
  Document.createdAt (fold_left apply_set fs d) = Document.createdAt d.
Proof.
  revert d. induction fs as [|f fs IH]; intros d; [easy|].
  cbn [fold_left]. destruct (IH (apply_set d f)) as (-> & -> & ->).
  now destruct f.
Qed.

(** The document that [update_data] makes of [d]. *)
Lemma apply_update_data (u : WorkoutUpdate.t) (d : Document.t) :
  fold_left apply_set (update_data u) d =
  Document.mk (Document._id d)
    (match WorkoutUpdate.name u with Some v => v | None => Document.name d end)
    (Document.type d)
    (match WorkoutUpdate.splits u with
     | Some v => v
     | None => Document.splits d
     end)
    (Document.createdAt d).
Proof.
  destruct u as [[n|] [s|]], d; reflexivity.
Qed.

Lemma update_data_nil (u : WorkoutUpdate.t) :
  update_data u = [] <->
  WorkoutUpdate.name u = None /\ WorkoutUpdate.splits u = None.
Proof. destruct u as [[n|] [s|]]; cbn; split; try easy; intros []; easy. Qed.

(** Looking a document up after [update_first]. *)
Lemma find_update_first (o oid : ObjectId) (fs : list SetField)
    (ds : list Document.t) :
  find (has_id o) (fst (update_first oid fs ds)) =
  option_map
    (fun d => if oid_eqb o oid then fold_left apply_set fs d else d)
    (find (has_id o) ds).
Proof.
  induction ds as [|d ds IH]; [reflexivity|].
  cbn [update_first].
  destruct (has_id oid d) eqn:Hd.
  - cbn [fst find]. unfold has_id in *.
    destruct (apply_sets_frame fs d) as (-> & _).
    apply oid_eqb_eq in Hd. rewrite Hd.
    destruct (oid_eqb oid o) eqn:Ho.
    + apply oid_eqb_eq in Ho. subst o. now rewrite oid_eqb_refl.
    + destruct (find _ ds); cbn [option_map]; [|reflexivity].
      destruct (oid_eqb o oid) eqn:Ho'; [|reflexivity].
      apply oid_eqb_eq in Ho'. subst o. now rewrite oid_eqb_refl in Ho.
  - destruct (update_first oid fs ds) as [ds' n]. cbn [fst find] in *.
    destruct (has_id o d) eqn:Ho; [|exact IH].
    cbn [option_map]. unfold has_id in *.
    destruct (oid_eqb o oid) eqn:E; [|reflexivity].
    apply oid_eqb_eq in E. subst o. congruence.
Qed.

Lemma update_first_matched (oid : ObjectId) (fs : list SetField)
    (ds : list Document.t) :
  snd (update_first oid fs ds) =
  match find (has_id oid) ds with Some _ => 1%nat | None => 0%nat end.
Proof.
  induction ds as [|d ds IH]; [reflexivity|].
  cbn [update_first find]. destruct (has_id oid d); [reflexivity|].
  now destruct (update_first oid fs ds).
Qed.

Lemma update_first_missing (oid : ObjectId) (fs : list SetField)
    (ds : list Document.t) :
  find (has_id oid) ds = None -> update_first oid fs ds = (ds, 0%nat).
Proof.
  induction ds as [|d ds IH]; [reflexivity|]. cbn [find update_first].
  destruct (has_id oid d); [discriminate|]. intros F. now rewrite (IH F).
Qed.

(** What an update does, case by case. *)
Lemma update_workout_full (workout_id : string) (u : WorkoutUpdate.t)
    (w : World) :
  update_workout workout_id u w =
  match update_data u with
  | [] => (inl (bad_request nothing_to_update), w)
  | _ :: _ =>
      match ObjectId_of_str workout_id with
      | inl e => (inl (bad_request e), w)
      | inr oid =>
          if set_encodable (update_data u) then
            match find (has_id oid) (workouts w) with
            | Some d =>
                (inr (serialize_workout
                        (Some (fold_left apply_set (update_data u) d))),
                 mkWorld (fst (update_first oid (update_data u) (workouts w)))
                   (clock_reads w) (oids_minted w))
            | None => (inl (bad_request not_found), w)
            end
          else (inl (bad_request OverflowError), w)
      end
  end.
Proof.
  unfold update_workout, try_except, bind, lift, update_one, raise, ret,
    find_one.
  destruct (update_data u) as [|f fs] eqn:Hu; [reflexivity|].
  destruct (ObjectId_of_str workout_id) as [e|oid]; [reflexivity|].
  destruct (set_encodable (f :: fs)); [|reflexivity].
  pose proof (update_first_matched oid (f :: fs) (workouts w)) as Hm.
  pose proof (find_update_first oid oid (f :: fs) (workouts w)) as Hf.
  destruct (find (has_id oid) (workouts w)) as [d|] eqn:F.
  - destruct (update_first oid (f :: fs) (workouts w)) as [ds n].
    cbn [fst snd] in *. subst n. cbn [Nat.eqb workouts].
    rewrite Hf. cbn [option_map]. now rewrite oid_eqb_refl.
  - rewrite (update_first_missing _ _ _ F). cbn [Nat.eqb]. now destruct w.
Qed.

Lemma update_workout_run (workout_id : string) (u : WorkoutUpdate.t)
    (w : World) (oid : ObjectId) :
  update_data u <> [] ->
  set_encodable (update_data u) = true ->
  ObjectId_of_str workout_id = inr oid ->
  update_workout workout_id u w =
  match find (has_id oid) (workouts w) with
  | Some d =>
      (inr (serialize_workout (Some (fold_left apply_set (update_data u) d))),
       mkWorld (fst (update_first oid (update_data u) (workouts w)))
         (clock_reads w) (oids_minted w))
  | None => (inl (bad_request not_found), w)
  end.
Proof.
  intros Hne He E. rewrite update_workout_full, E, He.
  now destruct (update_data u).
Qed.

(** What an update leaves of the collection, in every case. *)
Lemma update_workout_world (workout_id : string) (u : WorkoutUpdate.t)
    (w : World) :
  snd (update_workout workout_id u w) =
  match update_data u, ObjectId_of_str workout_id with
  | _ :: _, inr oid =>
      if set_encodable (update_data u) then
        mkWorld (fst (update_first oid (update_data u) (workouts w)))
          (clock_reads w) (oids_minted w)
      else w
  | _, _ => w
  end.
Proof.
  rewrite update_workout_full.
  destruct (update_data u) as [|f fs]; [reflexivity|].
  destruct (ObjectId_of_str workout_id) as [e|oid]; [reflexivity|].
  destruct (set_encodable (f :: fs)); [|reflexivity].
  destruct (find (has_id oid) (workouts w)) eqn:F; [reflexivity|].
  cbn [snd]. rewrite (update_first_missing _ _ _ F). now destruct w.
Qed.

(** An update answers 200 exactly when it wrote: a field supplied, an
    identifier that parses and is stored, an update that encodes. *)
Lemma PUT_workout_status (workout_id : string) (u : WorkoutUpdate.t)
    (w : World) :
  status (fst (PUT_workout workout_id u w)) =
  match update_data u, ObjectId_of_str workout_id with
  | _ :: _, inr oid =>
      if set_encodable (update_data u) then
        match find (has_id oid) (workouts w) with
        | Some _ => 200%Z
        | None => 400%Z
        end
      else 400%Z
  | _, _ => 400%Z
  end.
Proof.
  unfold PUT_workout, route. rewrite update_workout_full.
  destruct (update_data u) as [|f fs]; [reflexivity|].
  destruct (ObjectId_of_str workout_id) as [e|oid]; [reflexivity|].
  destruct (set_encodable (f :: fs)); [|reflexivity].
  now destruct (find (has_id oid) (workouts w)).
Qed.

(** C5.  Whatever the update request, every stored document keeps its
    identifier, its type and its creation timestamp; it keeps its name
    unless a name is supplied and its splits unless splits are supplied.
    When the update is answered with 200 the document addressed has taken
    the supplied values; every other document is left as it was, and so is
    every document when the answer is not 200. *)
Theorem update_writes_only_supplied_fields (workout_id : string)
    (u : WorkoutUpdate.t) (w : World) (o : ObjectId) (d : Document.t) :
  find (has_id o) (workouts w) = Some d ->
  exists d',
    find (has_id o) (workouts (snd (PUT_workout workout_id u w))) = Some d' /\
    Document._id d' = Document._id d /\
    Document.type d' = Document.type d /\
    Document.createdAt d' = Document.createdAt d /\
    (WorkoutUpdate.name u = None -> Document.name d' = Document.name d) /\
    (WorkoutUpdate.splits u = None ->
     Document.splits d' = Document.splits d) /\
    (ObjectId_of_str workout_id = inr o ->
     status (fst (PUT_workout workout_id u w)) = 200%Z ->
     (forall v, WorkoutUpdate.name u = Some v -> Document.name d' = v) /\
     (forall v, WorkoutUpdate.splits u = Some v -> Document.splits d' = v)) /\
    (ObjectId_of_str workout_id <> inr o -> d' = d) /\
    (status (fst (PUT_workout workout_id u w)) <> 200%Z -> d' = d).
Proof.
  intros F.
  assert (Hsnd : snd (PUT_workout workout_id u w)
                 = snd (update_workout workout_id u w)).
  { unfold PUT_workout, route.
    now destruct (update_workout workout_id u w). }
  rewrite Hsnd, update_workout_world, PUT_workout_status.
  assert (Same : exists d',
             find (has_id o) (workouts w) = Some d' /\
             Document._id d' = Document._id d /\
             Document.type d' = Document.type d /\
             Document.createdAt d' = Document.createdAt d /\
             (WorkoutUpdate.name u = None ->
              Document.name d' = Document.name d) /\
             (WorkoutUpdate.splits u = None ->
              Document.splits d' = Document.splits d) /\
             (ObjectId_of_str workout_id = inr o -> 400%Z = 200%Z ->
              (forall v, WorkoutUpdate.name u = Some v ->
                         Document.name d' = v) /\
              (forall v, WorkoutUpdate.splits u = Some v ->
                         Document.splits d' = v)) /\
             (ObjectId_of_str workout_id <> inr o -> d' = d) /\
             (400%Z <> 200%Z -> d' = d)).
  { exists d. repeat split; try easy. }
  destruct (update_data u) as [|f fs] eqn:Hu; [exact Same|].
  destruct (ObjectId_of_str workout_id) as [e|oid] eqn:E; [exact Same|].
  destruct (set_encodable (f :: fs)); [|exact Same].
  cbn [workouts]. rewrite find_update_first, F. cbn [option_map].
  destruct (oid_eqb o oid) eqn:Ho.
  - apply oid_eqb_eq in Ho. subst oid. rewrite F.
    exists (fold_left apply_set (f :: fs) d).
    rewrite <- Hu, apply_update_data. cbn.
    repeat split; try reflexivity.
    + now intros ->.
    + now intros ->.
    + now intros v ->.
    + now intros v ->.
    + intros Hne. now contradict Hne.
    + intros Hne. now contradict Hne.
  - apply oid_eqb_neq in Ho.
    exists d. repeat split; try easy; congruence.
Qed.


(** ** Malformed identifiers *)


(** ** Inserting *)

Lemma existsb_has_id (oid : ObjectId) (ds : list Document.t) :
  existsb (has_id oid) ds
  = existsb (fun i => oid_eqb i oid) (map Document._id ds).
Proof. induction ds as [|d ds IH]; [reflexivity|]. cbn. now rewrite IH. Qed.

Lemma find_absent (oid : ObjectId) (ds : list Document.t) :
  existsb (has_id oid) ds = false <-> find (has_id oid) ds = None.
Proof.
  induction ds as [|d ds IH]; [easy|]. cbn [existsb find].
  destruct (has_id oid d); cbn [orb]; [easy | exact IH].
Qed.

Lemma find_snoc (o : ObjectId) (ds : list Document.t) (d : Document.t) :
  find (has_id o) (ds ++ [d]) =
  match find (has_id o) ds with
  | Some x => Some x
  | None => if has_id o d then Some d else None
  end.
Proof.
  induction ds as [|x ds IH]; [reflexivity|]. cbn [app find].
  now destruct (has_id o x).
Qed.

Lemma insert_one_fresh (n : nat) (d : NewDocument.t) (w : World) :
  fresh (S n) w = true ->
  let oid := ObjectId_generate (oids_minted w) in
  let w' := mkWorld (workouts w ++ [with_id oid d]) (clock_reads w)
              (S (oids_minted w)) in
  insert_one d w = (inr oid, w') /\
  find (has_id oid) (workouts w) = None /\
  fresh n w' = true.
Proof.
  intros H oid w'. unfold fresh in *. cbn [fresh_ids] in H.
  apply andb_prop in H as [H1 H2]. apply negb_true_iff in H1.
  rewrite <- existsb_has_id in H1. fold oid in H1.
  repeat split.
  - unfold insert_one. fold oid. now rewrite H1.
  - now apply find_absent.
  - subst w'. cbn [workouts oids_minted]. now rewrite map_app.
Qed.

Lemma insert_many_fresh (ds : list NewDocument.t) (w : World) :
  fresh (List.length ds) w = true ->
  insert_many ds w =
  (inr (map Document._id (stored (oids_minted w) ds)),
   mkWorld (workouts w ++ stored (oids_minted w) ds) (clock_reads w)
     (List.length ds + oids_minted w)).
Proof.
  revert w. induction ds as [|d ds IH]; intros w H.
  - cbn. rewrite app_nil_r. now destruct w.
  - cbn [List.length] in H.
    destruct (insert_one_fresh _ d w H) as (E & _ & H').
    cbn [insert_many]. unfold bind at 1. rewrite E.
    unfold bind at 1. rewrite (IH _ H').
    cbn [workouts clock_reads oids_minted stored map List.length ret].
    unfold ret. rewrite <- app_assoc. cbn [app].
    f_equal. f_equal. lia.
Qed.

(** ** Create and copy *)

(** Inserting the dict of a request: the encoder first. *)
Lemma insert_one_dict (d : WorkoutDict.t) (w : World) :
  insert_one d w =
  if encodable (WorkoutDict.splits d) then
    insert_one
      (NewDocument.mk (WorkoutDict.name d) (WorkoutDict.type d)
         (WorkoutDict.splits d) (WorkoutDict.createdAt d)) w
  else
    (inl OverflowError,
     mkWorld (workouts w) (clock_reads w) (S (oids_minted w))).
Proof.
  unfold insert_one, bson_encode, WorkoutDict_bson, NewDocument_bson.
  now destruct (encodable (WorkoutDict.splits d)).
Qed.

Lemma create_workout_run (workout : WorkoutCreate.t) (w : World) :
  encodable (WorkoutCreate.splits workout) = true ->
  fresh 1 w = true ->
  let created :=
    Document.mk (ObjectId_generate (oids_minted w))
      (WorkoutCreate.name workout) (WorkoutCreate.type workout)
      (WorkoutCreate.splits workout)
      (bson_datetime (utcnow (clock_reads w))) in
  create_workout workout w =
  (inr (serialize_workout (Some created)),
   mkWorld (workouts w ++ [created]) (S (clock_reads w))
     (S (oids_minted w))).
Proof.
  intros He H created.
  set (w1 := mkWorld (workouts w) (S (clock_reads w)) (oids_minted w)).
  assert (H1 : fresh 1 w1 = true) by exact H.
  destruct (insert_one_fresh 0
              (NewDocument.mk (WorkoutCreate.name workout)
                 (WorkoutCreate.type workout) (WorkoutCreate.splits workout)
                 (utcnow (clock_reads w))) w1 H1) as (E & F & _).
  unfold create_workout, bind, datetime_utcnow. fold w1.
  rewrite insert_one_dict. cbn [WorkoutDict.splits WorkoutDict.name
    WorkoutDict.type WorkoutDict.createdAt]. rewrite He, E.
  unfold find_one, ret. cbn [workouts oids_minted clock_reads w1] in *.
  rewrite find_snoc, F. unfold has_id at 1. cbn [with_id Document._id].
  now rewrite oid_eqb_refl.
Qed.


Lemma copy_workout_run (workout_id new_name : string) (w : World)
    (oid : ObjectId) (original : Document.t) :
  ObjectId_of_str workout_id = inr oid ->
  find (has_id oid) (workouts w) = Some original ->
  fresh 1 w = true ->
  let created :=
    Document.mk (ObjectId_generate (oids_minted w)) new_name custom
      (Document.splits original) (bson_datetime (utcnow (clock_reads w))) in
  copy_workout workout_id new_name w =
  (inr (serialize_workout (Some created)),
   mkWorld (workouts w ++ [created]) (S (clock_reads w))
     (S (oids_minted w))).
Proof.
  intros E F H created.
  set (w1 := mkWorld (workouts w) (S (clock_reads w)) (oids_minted w)).
  assert (H1 : fresh 1 w1 = true) by exact H.
  destruct (insert_one_fresh 0
              (NewDocument.mk new_name custom (Document.splits original)
                 (utcnow (clock_reads w))) w1 H1) as (E1 & F1 & _).
  unfold copy_workout, try_except, bind, lift, find_one. rewrite E, F.
  unfold datetime_utcnow. fold w1. rewrite E1.
  unfold ret. cbn [workouts oids_minted clock_reads w1] in *.
  rewrite find_snoc, F1. unfold has_id at 1. cbn [with_id Document._id].
  now rewrite oid_eqb_refl.
Qed.

Lemma hexlify_inj (a b : list byte) : hexlify a = hexlify b -> a = b.
Proof.
  intros H. pose proof (fromhex_hexlify a) as Ha.
  rewrite H, fromhex_hexlify in Ha. congruence.
Qed.

Lemma ObjectId_of_str_inv (s : string) (oid : ObjectId) :
  ObjectId_of_str s = inr oid -> fromhex s = Some oid.
Proof.
  unfold ObjectId_of_str.
  destruct (String.length s =? 24)%nat; [|discriminate].
  destruct (fromhex s); [now intros [= ->] | discriminate].
Qed.

Lemma route_model_ok {A} (m : M (option A)) (w w' : World) (a : A) :
  m w = (inr (Some a), w') -> route respond_model m w = (OK a, w').
Proof. unfold route. now intros ->. Qed.

(** C3.  Copying a stored workout [W] under a new name answers with, and
    appends to the collection, a document of type custom with that name,
    [W]'s splits, the clock reading of this call as its creation timestamp,
    and a newly minted identifier, which differs from [W]'s as 12 bytes and
    as text; the documents already stored, [W] among them, stay as they
    were. *)
Theorem copy_makes_custom_duplicate (workout_id new_name : string)
    (w : World) (oid : ObjectId) (W : Document.t) :
  ObjectId_of_str workout_id = inr oid ->
  find (has_id oid) (workouts w) = Some W ->
  fresh 1 w = true ->
  let new_oid := ObjectId_generate (oids_minted w) in
  let new_id := ObjectId_str new_oid in
  let now := bson_datetime (utcnow (clock_reads w)) in
  let w' := snd (POST_workout_copy workout_id new_name w) in
  fst (POST_workout_copy workout_id new_name w)
    = OK (Workout.mk (Some new_id) new_name custom (Document.splits W)
            (Some now)) /\
  workouts w'
    = workouts w
      ++ [Document.mk new_oid new_name custom (Document.splits W) now] /\
  clock_reads w' = S (clock_reads w) /\
  new_oid <> Document._id W /\
  new_id <> ObjectId_str (Document._id W) /\
  new_id <> workout_id /\
  find (has_id oid) (workouts w') = Some W.
Proof.
  intros E F H new_oid new_id now w'.
  pose proof (copy_workout_run workout_id new_name w oid W E F H) as R.
  cbv zeta in R. apply route_model_ok in R.
  subst w'. unfold POST_workout_copy. rewrite R.
  cbn [fst snd workouts clock_reads].
  destruct (insert_one_fresh 0 (abc_classico 0%Z) w H) as (_ & Fnew & _).
  fold new_oid in Fnew.
  assert (Hne : new_oid <> oid)
    by (intros Heq; rewrite Heq in Fnew; congruence).
  rewrite (find_has_id _ _ _ F).
  repeat split; try reflexivity.
  - exact Hne.
  - intros Heq. now apply hexlify_inj in Heq.
  - intros Heq. apply ObjectId_of_str_inv in E.
    subst workout_id. unfold new_id, ObjectId_str in E.
    rewrite fromhex_hexlify in E. congruence.
  - now rewrite find_snoc, F.
Qed.

(** C10.  Copying asks nothing of the source's type: for a stored workout
    of either type the copy succeeds (200) and the new workout, as answered
    and as stored, has type custom. *)
Theorem copy_accepts_any_source_type (workout_id new_name : string)
    (w : World) (oid : ObjectId) (W : Document.t) (t : WorkoutType) :
  ObjectId_of_str workout_id = inr oid ->
  find (has_id oid) (workouts w) = Some W ->
  Document.type W = t ->
  fresh 1 w = true ->
  exists copy stored_copy,
    fst (POST_workout_copy workout_id new_name w) = OK copy /\
    Workout.type copy = custom /\
    workouts (snd (POST_workout_copy workout_id new_name w))
      = workouts w ++ [stored_copy] /\
    Document.type stored_copy = custom.
Proof.
  intros E F _ H.
  pose proof (copy_workout_run workout_id new_name w oid W E F H) as R.
  cbv zeta in R. apply route_model_ok in R.
  unfold POST_workout_copy. rewrite R.
  eexists _, _. repeat split.
Qed.


Lemma WorkoutType_of_str_None (s : string) :
  WorkoutType_of_str s = None <-> s <> "predefined" /\ s <> "custom".
Proof.
  unfold WorkoutType_of_str.
  destruct (String.eqb s "predefined") eqn:E1.
  - apply String.eqb_eq in E1. split; [discriminate | intros []; easy].
  - apply String.eqb_neq in E1.
    destruct (String.eqb s "custom") eqn:E2.
    + apply String.eqb_eq in E2. split; [discriminate | intros []; easy].
    + apply String.eqb_neq in E2. easy.
Qed.



(** ** Validation of create requests *)

(** C2.  A create request with the empty string for a name, one of the two
    types and splits that encode is answered with 200, and a workout with
    the empty name is stored: the model declares the name a plain [str] and
    nothing checks it. *)
Theorem empty_name_is_accepted (type : string) (t : WorkoutType)
    (splits : list SplitBody.t) (w : World) :
  WorkoutType_of_str type = Some t ->
  encodable (map WorkoutSplit_validate splits) = true ->
  fresh 1 w = true ->
  let body := CreateBody.mk (Some "") (Some type) (Some splits) in
  let stored_splits := map WorkoutSplit_validate splits in
  let now := bson_datetime (utcnow (clock_reads w)) in
  let oid := ObjectId_generate (oids_minted w) in
  POST_workouts body w
  = (OK (Workout.mk (Some (ObjectId_str oid)) "" t stored_splits (Some now)),
     mkWorld (workouts w ++ [Document.mk oid "" t stored_splits now])
       (S (clock_reads w)) (S (oids_minted w))) /\
  status (fst (POST_workouts body w)) = 200%Z.
Proof.
  intros Ht He H body stored_splits now oid.
  assert (V : WorkoutCreate_validate body
              = Some (WorkoutCreate.mk "" t stored_splits)).
  { unfold WorkoutCreate_validate, body. cbn. now rewrite Ht. }
  pose proof (create_workout_run (WorkoutCreate.mk "" t stored_splits) w
                He H) as R.
  cbv zeta in R. apply route_model_ok in R.
  unfold POST_workouts. rewrite V, R. split; reflexivity.
Qed.

(** X17.  A create request whose type is neither "predefined" nor "custom"
    (or is missing) is answered with 422 and nothing is stored: the handler
    is not run. *)
Theorem create_rejects_bad_type (body : CreateBody.t) (w : World) :
  CreateBody.type body <> Some "predefined" ->
  CreateBody.type body <> Some "custom" ->
  POST_workouts body w = (Unprocessable, w) /\
  status (fst (POST_workouts body w)) = 422%Z.
Proof.
  intros Hp Hc.
  assert (V : WorkoutCreate_validate body = None).
  { unfold WorkoutCreate_validate.
    destruct body as [[n|] [t|] [s|]]; cbn in *; try reflexivity.
    assert (Ht : WorkoutType_of_str t = None).
    { apply WorkoutType_of_str_None. split; congruence. }
    now rewrite Ht. }
  unfold POST_workouts. now rewrite V.
Qed.

(** ** Seeding *)

Lemma initialize_skips (w : World) :
  no_predefined w = false -> initialize_predefined_workouts w = (inr tt, w).
Proof.
  unfold no_predefined, initialize_predefined_workouts, bind, count_documents.
  now intros ->.
Qed.

Lemma initialize_seeds (w : World) :
  no_predefined w = true ->
  fresh 4 w = true ->
  initialize_predefined_workouts w =
  (inr tt,
   mkWorld (workouts w ++ seeded w) (4 + clock_reads w) (4 + oids_minted w)).
Proof.
  unfold no_predefined. intros Hc Hf.
  unfold initialize_predefined_workouts, bind at 1, count_documents.
  rewrite Hc. unfold bind, datetime_utcnow.
  cbn [clock_reads workouts oids_minted].
  set (ds := [abc_classico _; _; _; _]).
  set (w4 := mkWorld _ _ _).
  assert (Hf4 : fresh (List.length ds) w4 = true) by exact Hf.
  now rewrite (insert_many_fresh ds w4 Hf4).
Qed.

Lemma seeded_all_predefined (w : World) :
  filter (has_type predefined) (seeded w) = seeded w.
Proof. reflexivity. Qed.

Lemma no_predefined_seeded (w : World) :
  no_predefined
    (mkWorld (workouts w ++ seeded w) (4 + clock_reads w)
       (4 + oids_minted w)) = false.
Proof.
  unfold no_predefined. cbn [workouts].
  rewrite filter_app, seeded_all_predefined, length_app.
  apply Nat.eqb_neq. cbn [seeded catalog stored List.length]. lia.
Qed.

Lemma reseed_fixed (w : World) (n : nat) :
  no_predefined w = false -> Nat.iter n reseed w = w.
Proof.
  intros H. induction n as [|n IH]; [reflexivity|].
  rewrite Nat.iter_succ, IH. unfold reseed.
  now rewrite (initialize_skips w H).
Qed.

(** C4.  The startup hook inserts the catalog exactly when no predefined
    workout is stored: with one stored it changes nothing; with none (and
    four fresh identifiers to mint) it appends the four catalog documents.
    From then on, running the hook any number of times changes nothing, and
    listing the predefined workouts answers with exactly those four, in the
    order of the catalog. *)
Theorem seeding_is_idempotent (w : World) :
  (no_predefined w = false ->
   initialize_predefined_workouts w = (inr tt, w) /\
   forall n, Nat.iter n reseed w = w) /\
  (no_predefined w = true ->
   fresh 4 w = true ->
   let w1 := mkWorld (workouts w ++ seeded w) (4 + clock_reads w)
               (4 + oids_minted w) in
   initialize_predefined_workouts w = (inr tt, w1) /\
   map Document.name (seeded w)
     = ["ABC - Clássico"; "ABCDE - Avançado"; "Push/Pull/Legs";
        "Upper/Lower"] /\
   forall n,
     Nat.iter n reseed w1 = w1 /\
     get_predefined_workouts (Nat.iter n reseed w1)
       = (inr (map (fun d => serialize_workout (Some d)) (seeded w)), w1)).
Proof.
  split.
  - intros H. split; [now apply initialize_skips|].
    intros n. now apply reseed_fixed.
  - intros Hc Hf w1. split; [now apply initialize_seeds|].
    split; [reflexivity|]. intros n.
    assert (Hn : Nat.iter n reseed w1 = w1)
      by apply reseed_fixed, no_predefined_seeded.
    split; [exact Hn|]. rewrite Hn.
    unfold get_predefined_workouts, bind, find_type, ret, w1.
    cbn [workouts]. rewrite filter_app, seeded_all_predefined.
    unfold no_predefined in Hc. apply Nat.eqb_eq in Hc.
    apply length_zero_iff_nil in Hc. rewrite Hc. reflexivity.
Qed.

End ServiceProperties.

(** * The service on the sample runtime *)

(** The collection after first boot: the four catalog documents, with the
    identifiers 0 to 3. *)
Lemma sample_boot :
  reseed empty_world
  = mkWorld (seeded empty_world) 4 4.
Proof. reflexivity. Qed.

Lemma get_missing_witness :
  is_hex24 "507f1f77bcf86cd799439011" = true /\
  ObjectId_of_str "507f1f77bcf86cd799439011"
  = inr [x50; x7f; x1f; x77; xbc; xf8; x6c; xd7; x99; x43; x90; x11] /\
  GET_workout "507f1f77bcf86cd799439011" (reseed empty_world)
  = (Failure 400 "404: Treino não encontrado", reseed empty_world).
Proof.
  split; [reflexivity|]. split; [reflexivity|].
  refine (proj1 (get_missing_answers_400 "507f1f77bcf86cd799439011"
                   (reseed empty_world) eq_refl _)).
  intros oid [= <-]. reflexivity.
Defined.

Lemma sample_ids_NoDup :
  NoDup (map Document._id (workouts (reseed empty_world))).
Proof.
  vm_compute.
  repeat (constructor; [cbn; intuition discriminate|]). constructor.
Qed.

Lemma delete_then_get_witness :
  let w := reseed empty_world in
  ObjectId_of_str zeros24 = inr (sample_oid 0) /\
  find (has_id (sample_oid 0)) (workouts w) <> None /\
  fst (DELETE_workout zeros24 w) = OK deleted_message /\
  GET_workout zeros24 (snd (DELETE_workout zeros24 w))
  = (Failure 400 "404: Treino não encontrado",
     snd (DELETE_workout zeros24 w)).
Proof.
  intros w.
  assert (F : find (has_id (sample_oid 0)) (workouts w) <> None)
    by discriminate.
  split; [reflexivity|]. split; [exact F|].
  destruct (proj2 (delete_then_get_answers_400 zeros24 (sample_oid 0) w
                     eq_refl sample_ids_NoDup) F) as (Hd & _ & Hg).
  split; [exact Hd | exact Hg].
Defined.

Lemma update_name_witness :
  let w := reseed empty_world in
  let d := with_id (sample_oid 0) (abc_classico (utcnow 0)) in
  find (has_id (sample_oid 0)) (workouts w) = Some d /\
  exists d',
    find (has_id (sample_oid 0))
      (workouts
         (snd (PUT_workout zeros24 (WorkoutUpdate.mk (Some "Novo") None) w)))
    = Some d' /\
    Document.name d' = "Novo" /\
    Document.type d' = predefined /\
    Document.splits d' = Document.splits d /\
    Document.createdAt d' = Document.createdAt d.
Proof.
  intros w d. split; [reflexivity|].
  destruct (update_writes_only_supplied_fields zeros24
              (WorkoutUpdate.mk (Some "Novo") None) w (sample_oid 0) d
              eq_refl)
    as (d' & F & _ & Ht & Hc & _ & Hs & Hset & _).
  exists d'. split; [exact F|].
  split; [exact (proj1 (Hset eq_refl eq_refl) "Novo" eq_refl)|].
  split; [exact Ht|]. split; [exact (Hs eq_refl) | exact Hc].
Defined.

Lemma copy_witness :
  let w := reseed empty_world in
  ObjectId_of_str zeros24 = inr (sample_oid 0) /\
  fresh 1 w = true /\
  fst (POST_workout_copy zeros24 "X" w)
  = OK (Workout.mk (Some "000000000000000000000004") "X" custom
          (NewDocument.splits (abc_classico 0%Z))
          (Some 1700000004938000%Z)).
Proof.
  intros w. split; [reflexivity|]. split; [reflexivity|].
  exact (proj1 (copy_makes_custom_duplicate zeros24 "X" w (sample_oid 0)
                  (with_id (sample_oid 0) (abc_classico (utcnow 0)))
                  eq_refl eq_refl eq_refl)).
Defined.

(** A copy of a copy: the source is a custom workout. *)
Lemma copy_of_custom_witness :
  let w := snd (POST_workout_copy zeros24 "X" (reseed empty_world)) in
  let W := Document.mk (sample_oid 4) "X" custom
             (NewDocument.splits (abc_classico 0%Z)) 1700000004938000%Z in
  find (has_id (sample_oid 4)) (workouts w) = Some W /\
  exists copy stored_copy,
    fst (POST_workout_copy "000000000000000000000004" "Y" w) = OK copy /\
    Workout.type copy = custom /\
    workouts (snd (POST_workout_copy "000000000000000000000004" "Y" w))
      = workouts w ++ [stored_copy] /\
    Document.type stored_copy = custom.
Proof.
  intros w W. split; [reflexivity|].
  exact (copy_accepts_any_source_type "000000000000000000000004" "Y" w
           (sample_oid 4) W custom eq_refl eq_refl eq_refl eq_refl).
Defined.



Lemma create_rejects_bad_type_witness :
  let body := CreateBody.mk (Some "Test") (Some "invalid_type") (Some []) in
  CreateBody.type body <> Some "predefined" /\
  CreateBody.type body <> Some "custom" /\
  POST_workouts body empty_world = (Unprocessable, empty_world).
Proof.
  intros body.
  assert (Hp : CreateBody.type body <> Some "predefined") by discriminate.
  assert (Hc : CreateBody.type body <> Some "custom") by discriminate.
  split; [exact Hp|]. split; [exact Hc|].
  exact (proj1 (create_rejects_bad_type body empty_world Hp Hc)).
Defined.

Lemma create_accepts_empty_name :
  let body := CreateBody.mk (Some "") (Some "custom") (Some []) in
  CreateBody.name body = Some "" /\
  fresh 1 empty_world = true /\
  POST_workouts body empty_world
  = (OK (Workout.mk (Some zeros24) "" custom [] (Some 1700000000000000%Z)),
     mkWorld [Document.mk (sample_oid 0) "" custom [] 1700000000000000%Z]
       1 1) /\
  status (fst (POST_workouts body empty_world)) = 200%Z.
Proof.
  intros body. split; [reflexivity|]. split; [reflexivity|].
  exact (empty_name_is_accepted "custom" custom [] empty_world
           eq_refl eq_refl eq_refl).
Defined.

Lemma seeding_witness :
  no_predefined empty_world = true /\
  fresh 4 empty_world = true /\
  no_predefined (reseed empty_world) = false /\
  Nat.iter 3 reseed (reseed empty_world) = reseed empty_world /\
  fst (get_predefined_workouts (Nat.iter 3 reseed (reseed empty_world)))
  = inr (map (fun d => serialize_workout (Some d)) (seeded empty_world)).
Proof.
  assert (Hc : no_predefined empty_world = true) by reflexivity.
  assert (Hf : fresh 4 empty_world = true) by reflexivity.
  split; [exact Hc|]. split; [exact Hf|]. split; [reflexivity|].
  destruct (proj2 (seeding_is_idempotent empty_world) Hc Hf) as (_ & _ & H).
  destruct (H 3%nat) as [H1 H2].
  split; [exact H1|]. exact (f_equal fst H2).
Defined.

(** * Further properties: listings, composition, invariants *)

(** ** Sorting by date *)

Lemma insert_newest_perm (d : Document.t) (ds : list Document.t) :
  Permutation (insert_newest d ds) (d :: ds).
Proof.
  induction ds as [|x ds IH]; [reflexivity|]. cbn [insert_newest].
  destruct (Document.createdAt x <=? Document.createdAt d)%Z; [reflexivity|].
  rewrite IH. apply perm_swap.
Qed.

Lemma sort_newest_perm (ds : list Document.t) :
  Permutation (sort_newest ds) ds.
Proof.
  induction ds as [|d ds IH]; [reflexivity|].
  cbn [sort_newest fold_right]. rewrite insert_newest_perm.
  now apply perm_skip.
Qed.

Lemma insert_newest_sorted (d : Document.t) (ds : list Document.t) :
  newest_first ds -> newest_first (insert_newest d ds).
Proof.
  unfold newest_first. induction ds as [|x ds IH]; intros S.
  - repeat constructor.
  - cbn [insert_newest]. inversion_clear S as [|? ? S' Hx].
    destruct (Document.createdAt x <=? Document.createdAt d)%Z eqn:C.
    + apply Z.leb_le in C. constructor; [now constructor|].
      constructor; [exact C|].
      eapply Forall_impl; [|exact Hx]. cbn. intros a Ha. lia.
    + apply Z.leb_gt in C. constructor; [now apply IH|].
      apply (Permutation_Forall (Permutation_sym (insert_newest_perm d ds))).
      constructor; [lia | exact Hx].
Qed.

Lemma sort_newest_sorted (ds : list Document.t) : newest_first (sort_newest ds).
Proof.
  induction ds as [|d ds IH]; [constructor|].
  now apply insert_newest_sorted.
Qed.

Lemma newest_first_app (l1 l2 : list Document.t) :
  newest_first (l1 ++ l2) ->
  newest_first l1 /\
  forall x y, In x l1 -> In y l2 ->
              (Document.createdAt y <= Document.createdAt x)%Z.
Proof.
  unfold newest_first. induction l1 as [|a l1 IH]; cbn [app]; intros S.
  - split; [constructor | easy].
  - inversion_clear S as [|? ? S' Ha]. destruct (IH S') as [S1 Hle].
    apply Forall_app in Ha as [Ha1 Ha2]. split; [now constructor|].
    intros x y [<-|Hx] Hy; [|now apply Hle].
    now apply (proj1 (Forall_forall _ _) Ha2).
Qed.

(** The first [n] of a list sorted newest first: what [to_list(n)] keeps. *)
Lemma newest_kept (n : nat) (ds : list Document.t) :
  let kept := firstn n (sort_newest ds) in
  List.length kept = Nat.min n (List.length ds) /\
  newest_first kept /\
  incl kept ds /\
  (forall d, In d ds -> ~ In d kept ->
     forall x, In x kept ->
               (Document.createdAt d <= Document.createdAt x)%Z) /\
  (List.length ds <= n -> Permutation kept ds).
Proof.
  intros kept. pose proof (sort_newest_perm ds) as P.
  pose proof (sort_newest_sorted ds) as S.
  rewrite <- (firstn_skipn n (sort_newest ds)) in S.
  apply newest_first_app in S as [S1 Hle]. fold kept in S1, Hle.
  repeat split.
  - unfold kept. now rewrite length_firstn, (Permutation_length P).
  - exact S1.
  - intros x Hx. apply (Permutation_in _ P).
    rewrite <- (firstn_skipn n (sort_newest ds)). apply in_or_app. now left.
  - intros d Hd Hn x Hx. apply Hle; [exact Hx|].
    apply (Permutation_in _ (Permutation_sym P)) in Hd.
    rewrite <- (firstn_skipn n (sort_newest ds)) in Hd.
    apply in_app_or in Hd as [Hd|Hd]; [now contradict Hn | exact Hd].
  - intros L. unfold kept. rewrite firstn_all2; [exact P|].
    now rewrite (Permutation_length P).
Qed.

Section Listing.

Context {rt : Runtime}.

(** ** The three listings *)

(** X1.  Listing all workouts changes nothing and answers with at most 100
    stored workouts, newest first; a stored workout that is left out is no
    newer than any that is listed, and none is left out of a collection of
    at most 100. *)
Theorem get_workouts_newest_first (w : World) :
  exists listed,
    get_workouts w
    = (inr (map (fun d => serialize_workout (Some d)) listed), w) /\
    List.length listed = Nat.min 100 (List.length (workouts w)) /\
    newest_first listed /\
    incl listed (workouts w) /\
    (forall d, In d (workouts w) -> ~ In d listed ->
       forall x, In x listed ->
                 (Document.createdAt d <= Document.createdAt x)%Z) /\
    (List.length (workouts w) <= 100 -> Permutation listed (workouts w)).
Proof.
  exists (firstn 100 (sort_newest (workouts w))).
  split; [reflexivity|]. apply (newest_kept 100 (workouts w)).
Qed.

(** X2.  Listing the custom workouts changes nothing and answers with at
    most 100 stored workouts, all of type custom, newest first; every
    stored custom workout is listed when there are at most 100 of them. *)
Theorem get_custom_workouts_newest_first (w : World) :
  exists listed,
    get_custom_workouts w
    = (inr (map (fun d => serialize_workout (Some d)) listed), w) /\
    List.length listed <= 100 /\
    newest_first listed /\
    (forall d, In d listed ->
               In d (workouts w) /\ Document.type d = custom) /\
    (List.length (filter (has_type custom) (workouts w)) <= 100 ->
     forall d, In d (workouts w) -> Document.type d = custom ->
               In d listed).
Proof.
  exists (firstn 100 (sort_newest (filter (has_type custom) (workouts w)))).
  destruct (newest_kept 100 (filter (has_type custom) (workouts w)))
    as (L & S & I & _ & P).
  split; [reflexivity|]. split; [rewrite L; apply Nat.le_min_l|].
  split; [exact S|]. split.
  - intros d Hd. apply I, filter_In in Hd as [Hin Ht]. split; [exact Hin|].
    unfold has_type in Ht. now destruct (Document.type d).
  - intros Hle d Hin Ht.
    apply (Permutation_in _ (Permutation_sym (P Hle))).
    apply filter_In. split; [exact Hin|]. unfold has_type. now rewrite Ht.
Qed.

Lemma filter_type_perm (ds : list Document.t) :
  Permutation ds
    (filter (has_type predefined) ds ++ filter (has_type custom) ds).
Proof.
  induction ds as [|d ds IH]; [reflexivity|]. cbn [filter].
  assert (E : has_type custom d = negb (has_type predefined d))
    by (unfold has_type; now destruct (Document.type d)).
  rewrite E. destruct (has_type predefined d); cbn [negb app].
  - now apply perm_skip.
  - now apply Permutation_cons_app.
Qed.

(** X3.  In a collection of at most 100 workouts, the predefined listing
    and the custom listing together answer exactly the workouts of the
    listing of all, each as often. *)
Theorem listings_partition (w : World) :
  List.length (workouts w) <= 100 ->
  exists all pre cus,
    get_workouts w = (inr all, w) /\
    get_predefined_workouts w = (inr pre, w) /\
    get_custom_workouts w = (inr cus, w) /\
    Permutation all (pre ++ cus).
Proof.
  intros L. eexists _, _, _.
  split; [reflexivity|]. split; [reflexivity|]. split; [reflexivity|].
  rewrite <- map_app. apply Permutation_map.
  pose proof (filter_length_le (has_type predefined) (workouts w)) as Lp.
  pose proof (filter_length_le (has_type custom) (workouts w)) as Lc.
  destruct (newest_kept 100 (workouts w)) as (_ & _ & _ & _ & Pa).
  destruct (newest_kept 100 (filter (has_type custom) (workouts w)))
    as (_ & _ & _ & _ & Pc).
  rewrite (Pa L), (Pc ltac:(lia)), firstn_all2 by lia.
  apply filter_type_perm.
Qed.

End Listing.

(** ** Relations that every step of a handler respects *)

Section Respects.

Variable R : World -> World -> Prop.
Hypothesis R_refl : forall w, R w w.
Hypothesis R_trans : forall w1 w2 w3, R w1 w2 -> R w2 w3 -> R w1 w3.

Lemma respects_ret {A} (a : A) : respects R (ret a).
Proof. intros w. apply R_refl. Qed.

Lemma respects_raise {A} (e : Exn) : respects R (@raise A e).
Proof. intros w. apply R_refl. Qed.

Lemma respects_lift {A} (r : Exn + A) : respects R (lift r).
Proof. intros w. apply R_refl. Qed.

Lemma respects_bind {A B} (m : M A) (k : A -> M B) :
  respects R m -> (forall a, respects R (k a)) -> respects R (bind m k).
Proof.
  intros Hm Hk w. unfold bind. specialize (Hm w).
  destruct (m w) as [[e|a] w1]; cbn [snd] in *; [exact Hm|].
  exact (R_trans _ _ _ Hm (Hk a w1)).
Qed.

Lemma respects_try_except {A} (m : M A) (h : Exn -> M A) :
  respects R m -> (forall e, respects R (h e)) ->
  respects R (try_except m h).
Proof.
  intros Hm Hh w. unfold try_except. specialize (Hm w).
  destruct (m w) as [[e|a] w1]; cbn [snd] in *; [|exact Hm].
  exact (R_trans _ _ _ Hm (Hh e w1)).
Qed.

Lemma respects_same {A} (m : M A) :
  (forall w, snd (m w) = w) -> respects R m.
Proof. intros H w. rewrite H. apply R_refl. Qed.

End Respects.

Lemma snd_route {A B} (f : Exn + A -> Response B) (m : M A) (w : World) :
  snd (route f m w) = snd (m w).
Proof. unfold route. now destruct (m w). Qed.

Lemma fst_route {A B} (f : Exn + A -> Response B) (m : M A) (w : World) :
  fst (route f m w) = f (fst (m w)).
Proof. unfold route. now destruct (m w). Qed.

Lemma grows_refl (w : World) : grows w w.
Proof. exists []. now rewrite app_nil_r. Qed.

Lemma grows_trans (w1 w2 w3 : World) : grows w1 w2 -> grows w2 w3 -> grows w1 w3.
Proof.
  intros [a Ha] [b Hb]. exists (a ++ b). now rewrite Hb, Ha, app_assoc.
Qed.

Lemma keeps_unique_ids_refl (w : World) : keeps_unique_ids w w.
Proof. now intros H. Qed.

Lemma keeps_unique_ids_trans (w1 w2 w3 : World) :
  keeps_unique_ids w1 w2 -> keeps_unique_ids w2 w3 -> keeps_unique_ids w1 w3.
Proof. unfold keeps_unique_ids. auto. Qed.

(** Working through a handler, one construct at a time. *)
Ltac respects_steps refl trans prim :=
  repeat
    (cbv zeta;
     first
       [ apply (respects_ret _ refl)
       | apply (respects_raise _ refl)
       | apply (respects_lift _ refl)
       | apply (respects_same _ refl); reflexivity
       | prim
       | apply (respects_bind _ trans)
       | apply (respects_try_except _ trans)
       | match goal with
         | |- forall _, _ => intro
         | |- respects _ (match ?x with _ => _ end) => destruct x
         end ]).

Section Invariants.

Context {rt : Runtime}.

(** ** What the driver's operations do to the collection *)

Lemma find_app_l (o : ObjectId) (ds added : list Document.t) :
  find (has_id o) (ds ++ added) =
  match find (has_id o) ds with
  | Some d => Some d
  | None => find (has_id o) added
  end.
Proof.
  induction ds as [|x ds IH]; [reflexivity|]. cbn [app find].
  now destruct (has_id o x).
Qed.

Lemma not_in_ids (oid : ObjectId) (ds : list Document.t) :
  existsb (has_id oid) ds = false -> ~ In oid (map Document._id ds).
Proof.
  induction ds as [|d ds IH]; [easy|]. cbn [existsb map In].
  intros H. apply orb_false_iff in H as [Hd H].
  intros [E|Hin]; [|now apply IH].
  unfold has_id in Hd. rewrite E, oid_eqb_refl in Hd. discriminate.
Qed.

Lemma insert_one_cases (d : NewDocument.t) (w : World) :
  let oid := ObjectId_generate (oids_minted w) in
  (existsb (has_id oid) (workouts w) = true /\
   insert_one d w =
   (inl (DuplicateKeyError oid),
    mkWorld (workouts w) (clock_reads w) (S (oids_minted w)))) \/
  (existsb (has_id oid) (workouts w) = false /\
   insert_one d w =
   (inr oid,
    mkWorld (workouts w ++ [with_id oid d]) (clock_reads w)
      (S (oids_minted w)))).
Proof.
  intros oid. unfold insert_one. fold oid.
  destruct (existsb (has_id oid) (workouts w)); [left | right]; easy.
Qed.

Lemma update_first_ids (oid : ObjectId) (fs : list SetField)
    (ds : list Document.t) :
  map Document._id (fst (update_first oid fs ds)) = map Document._id ds.
Proof.
  induction ds as [|d ds IH]; [reflexivity|]. cbn [update_first].
  destruct (has_id oid d).
  - cbn [fst map]. now destruct (apply_sets_frame fs d) as (-> & _).
  - destruct (update_first oid fs ds) as [ds' n]. cbn [fst map] in *.
    now rewrite IH.
Qed.

Lemma delete_first_sub (oid : ObjectId) (ds : list Document.t)
    (x : Document.t) :
  In x (fst (delete_first oid ds)) -> In x ds.
Proof.
  induction ds as [|d ds IH]; [easy|]. cbn [delete_first].
  destruct (has_id oid d); [now right|].
  destruct (delete_first oid ds) as [ds' n]. cbn [fst] in *.
  intros [<-|H]; [now left | right; now apply IH].
Qed.

Lemma delete_first_unique (oid : ObjectId) (ds : list Document.t) :
  NoDup (map Document._id ds) ->
  NoDup (map Document._id (fst (delete_first oid ds))).
Proof.
  induction ds as [|d ds IH]; [easy|]. cbn [map delete_first].
  intros ND. inversion_clear ND as [|? ? Hd ND'].
  destruct (has_id oid d); [exact ND'|].
  specialize (IH ND').
  pose proof (delete_first_sub oid ds) as Hsub.
  destruct (delete_first oid ds) as [ds' n]. cbn [fst map] in *.
  constructor; [|exact IH].
  intros Hin. apply Hd. apply in_map_iff in Hin as (x & E & Hx).
  apply in_map_iff. exists x. split; [exact E | now apply Hsub].
Qed.

(** After [delete_first]: the identifier is gone (identifiers being
    unique), every other lookup is as before. *)
Lemma find_delete_first_other (o oid : ObjectId) (ds : list Document.t) :
  o <> oid ->
  find (has_id o) (fst (delete_first oid ds)) = find (has_id o) ds.
Proof.
  intros Hne. induction ds as [|d ds IH]; [reflexivity|].
  cbn [delete_first find].
  destruct (has_id oid d) eqn:Hd.
  - cbn [fst]. destruct (has_id o d) eqn:Ho; [|reflexivity].
    unfold has_id in *. apply oid_eqb_eq in Hd, Ho. congruence.
  - destruct (delete_first oid ds) as [ds' n]. cbn [fst find] in *.
    now rewrite IH.
Qed.

Lemma delete_first_length (oid : ObjectId) (ds : list Document.t) :
  (List.length (fst (delete_first oid ds)) + snd (delete_first oid ds)
   = List.length ds)%nat.
Proof.
  induction ds as [|d ds IH]; [reflexivity|]. cbn [delete_first].
  destruct (has_id oid d); cbn [fst snd List.length]; [lia|].
  destruct (delete_first oid ds) as [ds' n]. cbn [fst snd List.length] in *.
  lia.
Qed.

Lemma delete_first_count (oid : ObjectId) (ds : list Document.t) :
  snd (delete_first oid ds) =
  match find (has_id oid) ds with Some _ => 1%nat | None => 0%nat end.
Proof.
  induction ds as [|d ds IH]; [reflexivity|]. cbn [delete_first find].
  destruct (has_id oid d); [reflexivity|].
  now destruct (delete_first oid ds).
Qed.

Lemma delete_first_snoc (oid : ObjectId) (ds : list Document.t)
    (d : Document.t) :
  find (has_id oid) ds = None -> Document._id d = oid ->
  delete_first oid (ds ++ [d]) = (ds, 1%nat).
Proof.
  intros F E. induction ds as [|x ds IH]; cbn [app delete_first find] in *.
  - unfold has_id. now rewrite E, oid_eqb_refl.
  - destruct (has_id oid x); [discriminate|]. now rewrite (IH F).
Qed.

Lemma find_unique (ds : list Document.t) (d : Document.t) :
  NoDup (map Document._id ds) -> In d ds ->
  find (has_id (Document._id d)) ds = Some d.
Proof.
  induction ds as [|x ds IH]; [easy|]. cbn [map find].
  intros ND Hin. inversion_clear ND as [|? ? Hx ND'].
  destruct Hin as [->|Hin].
  - unfold has_id. now rewrite oid_eqb_refl.
  - destruct (has_id (Document._id d) x) eqn:E; [|now apply IH].
    exfalso. apply Hx. unfold has_id in E. apply oid_eqb_eq in E.
    rewrite E. now apply in_map.
Qed.

(** ** The identifiers stay unique *)

Lemma unique_ids_same (w w' : World) :
  map Document._id (workouts w') = map Document._id (workouts w) ->
  keeps_unique_ids w w'.
Proof. unfold keeps_unique_ids, unique_ids. now intros ->. Qed.

(** An insert fails and stores nothing, or stores the encoded document
    under the identifier minted, which was not there. *)
Lemma insert_one_outcome {A} {E : BsonDocument A} (d : A) (w : World) :
  let oid := ObjectId_generate (oids_minted w) in
  (exists e,
      insert_one d w =
      (inl e, mkWorld (workouts w) (clock_reads w) (S (oids_minted w)))) \/
  (exists doc,
      existsb (has_id oid) (workouts w) = false /\
      insert_one d w =
      (inr oid,
       mkWorld (workouts w ++ [with_id oid doc]) (clock_reads w)
         (S (oids_minted w)))).
Proof.
  intros oid. unfold insert_one. fold oid.
  destruct (bson_encode d) as [e|doc]; [left; now exists e|].
  destruct (existsb (has_id oid) (workouts w)); [left | right]; eauto.
Qed.

Lemma insert_one_unique {A} {E : BsonDocument A} (d : A) :
  respects keeps_unique_ids (insert_one d).
Proof.
  intros w.
  destruct (insert_one_outcome d w) as [[e ->]|(doc & H & ->)]; cbn [snd].
  - now apply unique_ids_same.
  - intros [ND L]. unfold unique_ids. cbn [workouts].
    rewrite map_app. cbn [map with_id Document._id]. split.
    + apply NoDup_app; [exact ND | repeat constructor; easy|].
      intros a Ha [<-|[]]. now apply (not_in_ids _ _ H).
    + apply Forall_app; split; [exact L|].
      repeat constructor. apply ObjectId_generate_length.
Qed.

Lemma insert_many_unique (ds : list NewDocument.t) :
  respects keeps_unique_ids (insert_many ds).
Proof.
  induction ds as [|d ds IH]; cbn [insert_many];
    respects_steps keeps_unique_ids_refl keeps_unique_ids_trans
      ltac:(first [apply insert_one_unique | apply IH]).
Qed.

Lemma datetime_utcnow_unique : respects keeps_unique_ids datetime_utcnow.
Proof. intros w. now apply unique_ids_same. Qed.

Lemma update_one_unique (oid : ObjectId) (fs : list SetField) :
  respects keeps_unique_ids (update_one oid fs).
Proof.
  intros w. unfold update_one.
  destruct (set_encodable fs); [|apply keeps_unique_ids_refl].
  pose proof (update_first_ids oid fs (workouts w)) as H.
  destruct (update_first oid fs (workouts w)) as [ds n]. cbn [fst snd] in *.
  now apply unique_ids_same.
Qed.

Lemma delete_one_unique (oid : ObjectId) :
  respects keeps_unique_ids (delete_one oid).
Proof.
  intros w [ND L]. unfold delete_one.
  pose proof (delete_first_unique oid _ ND) as ND'.
  pose proof (delete_first_sub oid (workouts w)) as Hsub.
  destruct (delete_first oid (workouts w)) as [ds n].
  cbn [fst snd] in *. split; [exact ND'|]. cbn [workouts].
  apply Forall_forall. intros i Hi.
  apply in_map_iff in Hi as (x & <- & Hx).
  apply (proj1 (Forall_forall _ _) L). apply in_map. now apply Hsub.
Qed.

Ltac unique_prim :=
  first [ apply insert_one_unique | apply insert_many_unique
        | apply datetime_utcnow_unique | apply update_one_unique
        | apply delete_one_unique ].

Ltac unique_steps :=
  respects_steps keeps_unique_ids_refl keeps_unique_ids_trans unique_prim.

Lemma serve_unique (r : Request) (w : World) :
  unique_ids w -> unique_ids (serve r w).
Proof.
  revert w. change (respects keeps_unique_ids (fun w => (inr tt, serve r w))).
  assert (H : forall A (m : M A),
             respects keeps_unique_ids m ->
             respects keeps_unique_ids (fun w => (inr tt, snd (m w))))
    by (intros A m Hm w; exact (Hm w)).
  destruct r; cbn [serve]; unfold reseed, GET_workout, POST_workouts,
    PUT_workout, DELETE_workout, POST_workout_copy;
    try (intros w; cbn [snd]; rewrite ?snd_route; revert w; apply H).
  - unfold initialize_predefined_workouts, count_documents. unique_steps.
  - unfold get_workouts, find_newest. unique_steps.
  - unfold get_predefined_workouts, find_type. unique_steps.
  - unfold get_custom_workouts, find_type_newest. unique_steps.
  - unfold get_workout, find_one. unique_steps.
  - intros w. cbn [snd].
    destruct (WorkoutCreate_validate body) as [workout|];
      [|apply keeps_unique_ids_refl].
    rewrite snd_route. revert w. apply H.
    unfold create_workout, find_one. unique_steps.
  - unfold update_workout, find_one. unique_steps.
  - unfold delete_workout. unique_steps.
  - unfold copy_workout, find_one. unique_steps.
Qed.

End Invariants.

Lemma In_firstn {A} (n : nat) (l : list A) (x : A) :
  In x (firstn n l) -> In x l.
Proof.
  intros H. rewrite <- (firstn_skipn n l). apply in_or_app. now left.
Qed.

Section Lifetime.

Context {rt : Runtime}.

(** X8.  Whatever happens to the service (startup hook, listings, fetches,
    creates, updates, deletes, copies, in any number and order, failing or
    not), the stored identifiers stay pairwise distinct and 12 bytes long. *)
Theorem ids_stay_unique (rs : list Request) (w : World) :
  unique_ids w -> unique_ids (serve_all rs w).
Proof.
  revert w. induction rs as [|r rs IH]; intros w H; [exact H|].
  cbn [serve_all fold_left]. apply IH. now apply serve_unique.
Qed.

(** ** The collection only grows under create, copy and the startup hook *)

Lemma insert_one_grows {A} {E : BsonDocument A} (d : A) :
  respects grows (insert_one d).
Proof.
  intros w.
  destruct (insert_one_outcome d w) as [[e ->]|(doc & _ & ->)]; cbn [snd].
  - exists []. cbn [workouts]. now rewrite app_nil_r.
  - now eexists.
Qed.

Lemma insert_many_grows (ds : list NewDocument.t) :
  respects grows (insert_many ds).
Proof.
  induction ds as [|d ds IH]; cbn [insert_many];
    respects_steps grows_refl grows_trans
      ltac:(first [apply insert_one_grows | apply IH]).
Qed.

Lemma datetime_utcnow_grows : respects grows datetime_utcnow.
Proof. intros w. exists []. cbn. now rewrite app_nil_r. Qed.

Ltac grows_steps :=
  respects_steps grows_refl grows_trans
    ltac:(first [ apply insert_one_grows | apply insert_many_grows
                | apply datetime_utcnow_grows ]).

Lemma create_workout_grows (workout : WorkoutCreate.t) :
  respects grows (create_workout workout).
Proof. unfold create_workout, find_one. grows_steps. Qed.

Lemma copy_workout_grows (workout_id new_name : string) :
  respects grows (copy_workout workout_id new_name).
Proof. unfold copy_workout, find_one. grows_steps. Qed.

Lemma initialize_grows : respects grows initialize_predefined_workouts.
Proof. unfold initialize_predefined_workouts, count_documents. grows_steps. Qed.

Lemma delete_workout_world (workout_id : string) (w : World) :
  snd (delete_workout workout_id w) =
  match ObjectId_of_str workout_id with
  | inr oid =>
      mkWorld (fst (delete_first oid (workouts w))) (clock_reads w)
        (oids_minted w)
  | inl _ => w
  end.
Proof.
  rewrite delete_workout_run.
  destruct (ObjectId_of_str workout_id) as [e|oid]; [reflexivity|].
  destruct (delete_first oid (workouts w)) as [ds n]. cbn [fst].
  now destruct (n =? 0)%nat.
Qed.

(** X9.  No event changes the type or the creation timestamp of a stored
    workout: a workout found under an identifier before and after an event
    (identifiers being unique) has the type and timestamp it had. *)
Theorem event_keeps_type_and_date (r : Request) (w : World) (o : ObjectId)
    (d d' : Document.t) :
  unique_ids w ->
  find (has_id o) (workouts w) = Some d ->
  find (has_id o) (workouts (serve r w)) = Some d' ->
  Document.type d' = Document.type d /\
  Document.createdAt d' = Document.createdAt d.
Proof.
  intros [ND _] F.
  assert (G : forall w', grows w w' ->
              find (has_id o) (workouts w') = Some d' -> d' = d).
  { intros w' [added E]. rewrite E, find_app_l, F. congruence. }
  assert (S : forall w', w' = w ->
              find (has_id o) (workouts w') = Some d' -> d' = d)
    by (intros w' ->; congruence).
  destruct r; cbn [serve]; unfold reseed, GET_workout, POST_workouts,
    PUT_workout, DELETE_workout, POST_workout_copy;
    rewrite ?snd_route.
  - intros F'. now rewrite (G _ (initialize_grows w) F').
  - intros F'. now rewrite (S _ eq_refl F').
  - intros F'. now rewrite (S _ eq_refl F').
  - intros F'. now rewrite (S _ eq_refl F').
  - rewrite get_workout_run.
    destruct (ObjectId_of_str workout_id) as [e|oid];
      [|destruct (find (has_id oid) (workouts w))];
      intros F'; now rewrite (S _ eq_refl F').
  - destruct (WorkoutCreate_validate body) as [workout|].
    + rewrite snd_route. intros F'.
      now rewrite (G _ (create_workout_grows workout w) F').
    + intros F'. now rewrite (S _ eq_refl F').
  - rewrite update_workout_world.
    destruct (update_data workout_update) as [|f fs];
      [intros F'; now rewrite (S _ eq_refl F')|].
    destruct (ObjectId_of_str workout_id) as [e|oid];
      [intros F'; now rewrite (S _ eq_refl F')|].
    destruct (set_encodable (f :: fs));
      [|intros F'; now rewrite (S _ eq_refl F')].
    cbn [workouts]. rewrite find_update_first, F. cbn [option_map].
    destruct (apply_sets_frame (f :: fs) d) as (_ & Ht & Hc).
    destruct (oid_eqb o oid); intros [= <-]; easy.
  - rewrite delete_workout_world.
    destruct (ObjectId_of_str workout_id) as [e|oid];
      [intros F'; now rewrite (S _ eq_refl F')|].
    cbn [workouts]. destruct (oid_eqb o oid) eqn:E.
    + apply oid_eqb_eq in E. subst o.
      assert (Hf : find (has_id oid) (workouts w) <> None) by congruence.
      destruct (delete_first_found oid _ ND Hf) as [_ ->]. discriminate.
    + apply oid_eqb_neq in E. rewrite (find_delete_first_other _ _ _ E), F.
      now intros [= <-].
  - intros F'. now rewrite (G _ (copy_workout_grows _ _ w) F').
Qed.

(** ** Every listed workout can be fetched *)

Lemma get_workout_stored (w : World) (d : Document.t) :
  unique_ids w -> In d (workouts w) ->
  exists wk,
    serialize_workout (Some d) = Some wk /\
    Workout.id wk = Some (ObjectId_str (Document._id d)) /\
    GET_workout (ObjectId_str (Document._id d)) w = (OK wk, w).
Proof.
  intros [ND L] Hin. eexists. split; [reflexivity|]. split; [reflexivity|].
  apply route_model_ok. rewrite get_workout_run, ObjectId_of_str_str.
  - now rewrite (find_unique _ _ ND Hin).
  - apply (proj1 (Forall_forall _ _) L). now apply in_map.
Qed.

(** X10.  Every workout that one of the three listings answers with has an
    identifier, and fetching that identifier answers with the same workout
    (identifiers being unique). *)
Theorem listed_workout_can_be_fetched (w : World) (wk : Workout.t) :
  unique_ids w ->
  (exists listing,
      (fst (get_workouts w) = inr listing \/
       fst (get_predefined_workouts w) = inr listing \/
       fst (get_custom_workouts w) = inr listing) /\
      In (Some wk) listing) ->
  exists id, Workout.id wk = Some id /\ GET_workout id w = (OK wk, w).
Proof.
  intros U (listing & Hl & Hin).
  assert (Hd : exists d, In d (workouts w)
                         /\ serialize_workout (Some d) = Some wk).
  { assert (inr_inj : forall (a b : list (option Workout.t)),
               @inr Exn _ a = inr b -> b = a) by congruence.
    unfold get_workouts, get_predefined_workouts, get_custom_workouts, bind,
      find_newest, find_type, find_type_newest, ret in Hl. cbn [fst] in Hl.
    destruct Hl as [Hl|[Hl|Hl]]; apply inr_inj in Hl; subst listing;
      apply in_map_iff in Hin as (d & E & Hd); exists d; split; try exact E.
    - now apply (newest_kept 100 (workouts w)).
    - apply In_firstn, filter_In in Hd. tauto.
    - apply (newest_kept 100 (filter (has_type custom) (workouts w))) in Hd.
      apply filter_In in Hd. tauto. }
  destruct Hd as (d & Hd & E).
  destruct (get_workout_stored w d U Hd) as (wk' & E' & Hid & G).
  rewrite E in E'. injection E' as <-. eauto.
Qed.

End Lifetime.

Section Composition.

Context {rt : Runtime}.

(** ** The answers of the routes *)

Lemma get_workout_cases (workout_id : string) (w : World) :
  (exists wk, get_workout workout_id w = (inr (Some wk), w)) \/
  (exists e, get_workout workout_id w = (inl (bad_request e), w)).
Proof.
  rewrite get_workout_run.
  destruct (ObjectId_of_str workout_id) as [e|oid]; [right; repeat eexists|].
  destruct (find (has_id oid) (workouts w)); [left | right]; repeat eexists.
Qed.

Lemma update_workout_cases (workout_id : string) (u : WorkoutUpdate.t)
    (w : World) :
  (exists wk w', update_workout workout_id u w = (inr (Some wk), w')) \/
  (exists e w', update_workout workout_id u w = (inl (bad_request e), w')).
Proof.
  rewrite update_workout_full.
  destruct (update_data u) as [|f fs]; [right; repeat eexists|].
  destruct (ObjectId_of_str workout_id) as [e|oid]; [right; repeat eexists|].
  destruct (set_encodable (f :: fs)); [|right; repeat eexists].
  destruct (find (has_id oid) (workouts w)); [left | right]; repeat eexists.
Qed.

Lemma copy_workout_cases (workout_id new_name : string) (w : World) :
  (exists wk w', copy_workout workout_id new_name w = (inr (Some wk), w')) \/
  (exists e w',
      copy_workout workout_id new_name w = (inl (bad_request e), w')).
Proof.
  unfold copy_workout, try_except, bind, lift, find_one, datetime_utcnow,
    raise, ret.
  destruct (ObjectId_of_str workout_id) as [e|oid]; [right; repeat eexists|].
  destruct (find (has_id oid) (workouts w)) as [original|];
    [|right; repeat eexists].
  match goal with
  | |- context [insert_one ?d ?w1] =>
      destruct (insert_one_cases d w1) as [[_ ->]|[H ->]]
  end.
  - right. repeat eexists.
  - left. cbn [workouts] in *.
    apply find_absent in H. rewrite find_snoc, H.
    unfold has_id at 1. cbn [with_id Document._id].
    rewrite oid_eqb_refl. repeat eexists.
Qed.

Lemma delete_workout_cases (workout_id : string) (w : World) :
  (exists w', delete_workout workout_id w = (inr deleted_message, w')) \/
  (exists e w', delete_workout workout_id w = (inl (bad_request e), w')).
Proof.
  rewrite delete_workout_run.
  destruct (ObjectId_of_str workout_id) as [e|oid]; [right; repeat eexists|].
  destruct (delete_first oid (workouts w)) as [ds n].
  destruct (n =? 0)%nat; [right | left]; repeat eexists.
Qed.

Lemma GET_workout_status (workout_id : string) (w : World) :
  status (fst (GET_workout workout_id w)) = 200%Z \/
  status (fst (GET_workout workout_id w)) = 400%Z.
Proof.
  unfold GET_workout. rewrite fst_route.
  destruct (get_workout_cases workout_id w) as [[wk ->]|[e ->]];
    [left | right]; reflexivity.
Qed.

(** X4.  Once the handler runs, fetch, update, delete and copy answer with
    200 or with 400 and with nothing else, whatever the identifier, the
    collection, the update (a body that fits [WorkoutUpdate]) and the new
    name (a string): no 404, and no 500 either.  A body that does not fit
    the model, or a copy without its [new_name], is refused with 422 before
    the handler, and is not among the requests here. *)
Theorem routes_answer_200_or_400 (workout_id new_name : string)
    (u : WorkoutUpdate.t) (w : World) :
  (status (fst (GET_workout workout_id w)) = 200%Z \/
   status (fst (GET_workout workout_id w)) = 400%Z) /\
  (status (fst (PUT_workout workout_id u w)) = 200%Z \/
   status (fst (PUT_workout workout_id u w)) = 400%Z) /\
  (status (fst (DELETE_workout workout_id w)) = 200%Z \/
   status (fst (DELETE_workout workout_id w)) = 400%Z) /\
  (status (fst (POST_workout_copy workout_id new_name w)) = 200%Z \/
   status (fst (POST_workout_copy workout_id new_name w)) = 400%Z).
Proof.
  split; [apply GET_workout_status|].
  unfold PUT_workout, DELETE_workout, POST_workout_copy.
  rewrite !fst_route. repeat split.
  - destruct (update_workout_cases workout_id u w)
      as [(wk & w' & ->)|(e & w' & ->)]; [left | right]; reflexivity.
  - destruct (delete_workout_cases workout_id w)
      as [(w' & ->)|(e & w' & ->)]; [left | right]; reflexivity.
  - destruct (copy_workout_cases workout_id new_name w)
      as [(wk & w' & ->)|(e & w' & ->)]; [left | right]; reflexivity.
Qed.

(** X15.  [test_error_cases] of backend_test.py returns [False] against
    this service in every state of the collection: the fetch of
    507f1f77bcf86cd799439011 is answered with 200 or with 400, and the test
    asks for 404. *)
Theorem test_error_cases_fails (w : World) :
  fst (test_error_cases w) = false.
Proof.
  unfold test_error_cases.
  destruct (GET_workout "invalid_id_format" w) as [r1 w1].
  destruct (success r1 || _); [reflexivity|].
  pose proof (GET_workout_status "507f1f77bcf86cd799439011" w1) as H.
  destruct (GET_workout "507f1f77bcf86cd799439011" w1) as [r2 w2].
  cbn [fst] in H. unfold success. now destruct H as [-> | ->].
Qed.

(** ** Updates *)

Lemma update_data_not_nil (u : WorkoutUpdate.t) :
  WorkoutUpdate.name u <> None \/ WorkoutUpdate.splits u <> None ->
  update_data u <> [].
Proof.
  intros H E. apply update_data_nil in E as [En Es]. tauto.
Qed.

Lemma set_encodable_update_data (u : WorkoutUpdate.t) :
  set_encodable (update_data u) = true <->
  (forall v, WorkoutUpdate.splits u = Some v -> encodable v = true).
Proof.
  destruct u as [[n|] [s|]]; cbn; rewrite ?andb_true_r; split;
    try easy; try (intros H v [= <-]; exact H); intros H; now apply H.
Qed.

(** X5.  An update of a stored workout that supplies a name or splits, the
    splits (if any) within what BSON holds, answers with that workout
    carrying the supplied values (and what it had otherwise); fetching it
    next answers with the same. *)
Theorem update_then_get (workout_id : string) (u : WorkoutUpdate.t)
    (w : World) (oid : ObjectId) (d : Document.t) :
  ObjectId_of_str workout_id = inr oid ->
  find (has_id oid) (workouts w) = Some d ->
  WorkoutUpdate.name u <> None \/ WorkoutUpdate.splits u <> None ->
  (forall v, WorkoutUpdate.splits u = Some v -> encodable v = true) ->
  let updated :=
    Workout.mk (Some (ObjectId_str oid))
      (match WorkoutUpdate.name u with
       | Some v => v
       | None => Document.name d
       end)
      (Document.type d)
      (match WorkoutUpdate.splits u with
       | Some v => v
       | None => Document.splits d
       end)
      (Some (Document.createdAt d)) in
  let w' := snd (PUT_workout workout_id u w) in
  fst (PUT_workout workout_id u w) = OK updated /\
  GET_workout workout_id w' = (OK updated, w').
Proof.
  intros E F Hu He updated w'. apply update_data_not_nil in Hu.
  apply set_encodable_update_data in He.
  pose proof (update_workout_run workout_id u w oid Hu He E) as R.
  rewrite F, apply_update_data in R.
  cbn [serialize_workout Document._id Document.name Document.type
       Document.splits Document.createdAt] in R.
  rewrite (find_has_id _ _ _ F) in R. apply route_model_ok in R.
  subst w'. unfold PUT_workout. rewrite R. cbn [fst snd].
  split; [reflexivity|]. unfold GET_workout. apply route_model_ok.
  rewrite get_workout_run, E. cbn [workouts].
  rewrite find_update_first, F. cbn [option_map].
  rewrite oid_eqb_refl, apply_update_data.
  cbn [serialize_workout Document._id Document.name Document.type
       Document.splits Document.createdAt].
  now rewrite (find_has_id _ _ _ F).
Qed.

Lemma apply_update_data_twice (u : WorkoutUpdate.t) (d : Document.t) :
  fold_left apply_set (update_data u) (fold_left apply_set (update_data u) d)
  = fold_left apply_set (update_data u) d.
Proof.
  rewrite !apply_update_data. cbn.
  now destruct (WorkoutUpdate.name u), (WorkoutUpdate.splits u).
Qed.

Lemma update_first_twice (oid : ObjectId) (fs : list SetField)
    (ds : list Document.t) :
  (forall d, fold_left apply_set fs (fold_left apply_set fs d)
             = fold_left apply_set fs d) ->
  update_first oid fs (fst (update_first oid fs ds)) = update_first oid fs ds.
Proof.
  intros Hf. induction ds as [|d ds IH]; [reflexivity|].
  cbn [update_first]. destruct (has_id oid d) eqn:Hd.
  - cbn [fst update_first]. unfold has_id in *.
    destruct (apply_sets_frame fs d) as (-> & _). now rewrite Hd, Hf.
  - destruct (update_first oid fs ds) as [ds' n] eqn:U.
    cbn [fst update_first] in *. now rewrite Hd, IH.
Qed.

(** X6.  Updating is idempotent: the same update sent again is answered as
    the first time and leaves the collection as the first one left it. *)
Theorem update_twice (workout_id : string) (u : WorkoutUpdate.t)
    (w : World) :
  PUT_workout workout_id u (snd (PUT_workout workout_id u w))
  = (fst (PUT_workout workout_id u w), snd (PUT_workout workout_id u w)).
Proof.
  unfold PUT_workout. rewrite snd_route, fst_route. unfold route.
  set (w' := snd (update_workout workout_id u w)).
  assert (H : update_workout workout_id u w'
              = (fst (update_workout workout_id u w), w'));
    [|now rewrite H].
  subst w'. rewrite !update_workout_full.
  destruct (update_data u) as [|f fs] eqn:Hu; [reflexivity|].
  destruct (ObjectId_of_str workout_id) as [e|oid]; [reflexivity|].
  destruct (set_encodable (f :: fs)); [|reflexivity].
  destruct (find (has_id oid) (workouts w)) as [d|] eqn:F.
  - cbn [fst snd workouts clock_reads oids_minted].
    rewrite find_update_first, F. cbn [option_map].
    rewrite oid_eqb_refl, <- Hu, apply_update_data_twice.
    now rewrite update_first_twice by apply apply_update_data_twice.
  - cbn [fst snd]. now rewrite F.
Qed.

(** X7.  Update and copy of a well-formed identifier that matches no stored
    workout are answered with 400 and leave the collection, the clock and
    the identifiers untouched.  The detail is [str] of the 404 that the
    handler raised, save for an update whose splits BSON cannot hold: the
    driver raises before anything is matched, and the detail is [str] of
    its error. *)
Theorem update_and_copy_of_missing (workout_id : string) (oid : ObjectId)
    (w : World) :
  ObjectId_of_str workout_id = inr oid ->
  find (has_id oid) (workouts w) = None ->
  (forall u,
      WorkoutUpdate.name u <> None \/ WorkoutUpdate.splits u <> None ->
      PUT_workout workout_id u w
      = (Failure 400
           (Exn_str
              (if set_encodable (update_data u)
               then HTTPException 404 "Treino não encontrado"
               else OverflowError)),
         w)) /\
  (forall new_name,
      POST_workout_copy workout_id new_name w
      = (Failure 400 (Exn_str (HTTPException 404 "Treino não encontrado")),
         w)).
Proof.
  intros E F. split.
  - intros u Hu. apply update_data_not_nil in Hu.
    unfold PUT_workout, route.
    rewrite update_workout_full, E, F.
    destruct (update_data u) as [|f fs]; [easy|].
    now destruct (set_encodable (f :: fs)).
  - intros new_name. unfold POST_workout_copy, route, copy_workout,
      try_except, bind, lift, find_one, raise.
    now rewrite E, F.
Qed.

End Composition.

Section RoundTrips.

Context {rt : Runtime}.

(** ** Deleting *)

(** X13.  A delete touches the addressed workout alone: every other
    identifier is looked up as before, the collection loses one document if
    the identifier was stored and none otherwise, nothing is added, and the
    clock is not read. *)
Theorem delete_touches_one_workout (workout_id : string) (oid : ObjectId)
    (w : World) :
  ObjectId_of_str workout_id = inr oid ->
  let w' := snd (DELETE_workout workout_id w) in
  (forall o, o <> oid ->
     find (has_id o) (workouts w') = find (has_id o) (workouts w)) /\
  (List.length (workouts w')
   + match find (has_id oid) (workouts w) with
     | Some _ => 1
     | None => 0
     end = List.length (workouts w))%nat /\
  (forall d, In d (workouts w') -> In d (workouts w)) /\
  clock_reads w' = clock_reads w /\
  oids_minted w' = oids_minted w.
Proof.
  intros E w'. subst w'. unfold DELETE_workout.
  rewrite snd_route, delete_workout_world, E.
  cbn [workouts clock_reads oids_minted]. repeat split.
  - intros o Ho. now apply find_delete_first_other.
  - rewrite <- delete_first_count. apply delete_first_length.
  - apply delete_first_sub.
Qed.

Lemma delete_last_inserted (w : World) (d : Document.t) (c k : nat) :
  List.length (Document._id d) = 12%nat ->
  find (has_id (Document._id d)) (workouts w) = None ->
  DELETE_workout (ObjectId_str (Document._id d))
    (mkWorld (workouts w ++ [d]) c k)
  = (OK deleted_message, mkWorld (workouts w) c k).
Proof.
  intros L F. unfold DELETE_workout, route.
  rewrite delete_workout_run, (ObjectId_of_str_str _ L).
  cbn [workouts clock_reads oids_minted].
  now rewrite (delete_first_snoc _ _ _ F eq_refl).
Qed.

Lemma get_last_inserted (w : World) (d : Document.t) (c k : nat) :
  List.length (Document._id d) = 12%nat ->
  find (has_id (Document._id d)) (workouts w) = None ->
  get_workout (ObjectId_str (Document._id d))
    (mkWorld (workouts w ++ [d]) c k)
  = (inr (serialize_workout (Some d)), mkWorld (workouts w ++ [d]) c k).
Proof.
  intros L F. rewrite get_workout_run, (ObjectId_of_str_str _ L).
  cbn [workouts]. rewrite find_snoc, F. unfold has_id.
  now rewrite oid_eqb_refl.
Qed.

(** ** Create, copy and their undoing *)

(** X12.  Creating a workout whose integers BSON can hold, and then
    deleting the identifier answered, brings the collection back to what it
    was: the delete succeeds and the documents are those from before the
    create, in their order. *)
Theorem create_then_delete (body : CreateBody.t)
    (workout : WorkoutCreate.t) (w : World) :
  WorkoutCreate_validate body = Some workout ->
  encodable (WorkoutCreate.splits workout) = true ->
  fresh 1 w = true ->
  exists created id,
    fst (POST_workouts body w) = OK created /\
    Workout.id created = Some id /\
    fst (DELETE_workout id (snd (POST_workouts body w)))
      = OK deleted_message /\
    workouts (snd (DELETE_workout id (snd (POST_workouts body w))))
      = workouts w.
Proof.
  intros V He H.
  pose proof (create_workout_run workout w He H) as R. cbv zeta in R.
  apply route_model_ok in R.
  destruct (insert_one_fresh 0 (abc_classico 0%Z) w H) as (_ & Fnew & _).
  unfold POST_workouts. rewrite V, R. cbn [fst snd].
  eexists _, _. split; [reflexivity|]. split; [reflexivity|].
  cbn [Workout.id].
  match goal with
  | |- context [workouts w ++ [?d]] =>
      rewrite (delete_last_inserted w d _ _
                 (ObjectId_generate_length _) Fnew)
  end.
  split; reflexivity.
Qed.

(** X11.  After a copy, fetching the new identifier answers with the copy,
    and deleting it brings the collection back to what it was before the
    copy. *)
Theorem copy_then_get_then_delete (workout_id new_name : string)
    (w : World) (oid : ObjectId) (W : Document.t) :
  ObjectId_of_str workout_id = inr oid ->
  find (has_id oid) (workouts w) = Some W ->
  fresh 1 w = true ->
  exists copy id,
    fst (POST_workout_copy workout_id new_name w) = OK copy /\
    Workout.id copy = Some id /\
    let w1 := snd (POST_workout_copy workout_id new_name w) in
    GET_workout id w1 = (OK copy, w1) /\
    fst (DELETE_workout id w1) = OK deleted_message /\
    workouts (snd (DELETE_workout id w1)) = workouts w.
Proof.
  intros E F H.
  pose proof (copy_workout_run workout_id new_name w oid W E F H) as R.
  cbv zeta in R. apply route_model_ok in R.
  destruct (insert_one_fresh 0 (abc_classico 0%Z) w H) as (_ & Fnew & _).
  unfold POST_workout_copy. rewrite R. cbv zeta. cbn [fst snd].
  eexists _, _. split; [reflexivity|]. split; [reflexivity|].
  cbn [Workout.id].
  match goal with
  | |- context [workouts w ++ [?d]] =>
      rewrite (delete_last_inserted w d _ _
                 (ObjectId_generate_length _) Fnew);
      pose proof (get_last_inserted w d (S (clock_reads w))
                    (S (oids_minted w)) (ObjectId_generate_length _) Fnew)
        as G
  end.
  cbn [Document._id] in G. apply route_model_ok in G.
  split; [exact G|]. split; reflexivity.
Qed.

(** ** When the store refuses the identifier *)

(** X14.  When the identifier minted for the new document is already
    stored, a create is answered with 500 (the handler catches nothing) and
    a copy with 400, the detail being [str] of the driver's error; neither
    stores anything. *)
Theorem duplicate_key_answers (w : World) :
  existsb (has_id (ObjectId_generate (oids_minted w))) (workouts w) = true ->
  let refused :=
    mkWorld (workouts w) (S (clock_reads w)) (S (oids_minted w)) in
  (forall body workout,
      WorkoutCreate_validate body = Some workout ->
      POST_workouts body w = (ServerError, refused)) /\
  (forall workout_id new_name oid W,
      ObjectId_of_str workout_id = inr oid ->
      find (has_id oid) (workouts w) = Some W ->
      POST_workout_copy workout_id new_name w
      = (Failure 400
           (Exn_str (DuplicateKeyError (ObjectId_generate (oids_minted w)))),
         refused)).
Proof.
  intros H refused. split.
  - intros body workout V. unfold POST_workouts. rewrite V.
    unfold route, create_workout, bind, datetime_utcnow.
    rewrite insert_one_dict.
    destruct (encodable _); [|reflexivity].
    unfold insert_one, bson_encode, NewDocument_bson.
    cbn [workouts oids_minted clock_reads]. now rewrite H.
  - intros workout_id new_name oid W E F.
    unfold POST_workout_copy, route, copy_workout, try_except, bind, lift,
      find_one, datetime_utcnow, insert_one.
    rewrite E, F. cbn [workouts oids_minted clock_reads]. now rewrite H.
Qed.

(** ** A predefined workout of the user's *)

(** X16.  The create route takes "predefined" for a type like "custom":
    the workout (its integers within what BSON holds) is stored as
    predefined, and from then on the startup hook finds a predefined
    workout and inserts nothing, whether or not the catalog was ever
    inserted. *)
Theorem created_predefined_stops_seeding (body : CreateBody.t) (w : World)
    (name : string) (splits : list SplitBody.t) :
  CreateBody.name body = Some name ->
  CreateBody.type body = Some "predefined" ->
  CreateBody.splits body = Some splits ->
  encodable (map WorkoutSplit_validate splits) = true ->
  fresh 1 w = true ->
  let w1 := snd (POST_workouts body w) in
  (exists id t,
      fst (POST_workouts body w)
      = OK (Workout.mk (Some id) name predefined
              (map WorkoutSplit_validate splits) (Some t))) /\
  no_predefined w1 = false /\
  initialize_predefined_workouts w1 = (inr tt, w1).
Proof.
  intros Hn Ht Hs He H w1.
  set (stored_splits := map WorkoutSplit_validate splits) in *.
  assert (V : WorkoutCreate_validate body
              = Some (WorkoutCreate.mk name predefined stored_splits)).
  { unfold WorkoutCreate_validate. now rewrite Hn, Ht, Hs. }
  pose proof (create_workout_run
                (WorkoutCreate.mk name predefined stored_splits) w He H) as R.
  cbv zeta in R. apply route_model_ok in R.
  subst w1. unfold POST_workouts. rewrite V, R. cbn [fst snd].
  assert (N : no_predefined
                (mkWorld
                   (workouts w ++
                    [Document.mk (ObjectId_generate (oids_minted w)) name
                       predefined stored_splits
                       (bson_datetime (utcnow (clock_reads w)))])
                   (S (clock_reads w)) (S (oids_minted w))) = false).
  { unfold no_predefined. cbn [workouts]. rewrite filter_app, length_app.
    apply Nat.eqb_neq. cbn. lia. }
  split; [now eexists _, _|]. split; [exact N|].
  now apply initialize_skips.
Qed.

End RoundTrips.

(** * The further properties on the sample runtime *)

Lemma unique_ids_empty : unique_ids empty_world.
Proof. split; constructor. Qed.

Lemma unique_ids_sample : unique_ids (reseed empty_world).
Proof. exact (serve_unique Startup empty_world unique_ids_empty). Qed.

Lemma listings_partition_witness :
  List.length (workouts (reseed empty_world)) <= 100 /\
  exists all pre cus,
    get_workouts (reseed empty_world) = (inr all, reseed empty_world) /\
    get_predefined_workouts (reseed empty_world)
      = (inr pre, reseed empty_world) /\
    get_custom_workouts (reseed empty_world)
      = (inr cus, reseed empty_world) /\
    Permutation all (pre ++ cus).
Proof.
  assert (L : List.length (workouts (reseed empty_world)) <= 100)
    by (cbn; lia).
  split; [exact L|]. exact (listings_partition (reseed empty_world) L).
Defined.

Lemma update_then_get_witness :
  let w := reseed empty_world in
  let u := WorkoutUpdate.mk (Some "Novo") None in
  ObjectId_of_str zeros24 = inr (sample_oid 0) /\
  WorkoutUpdate.name u <> None /\
  fst (PUT_workout zeros24 u w)
  = OK (Workout.mk (Some zeros24) "Novo" predefined
          (NewDocument.splits (abc_classico 0%Z))
          (Some 1700000000000000%Z)) /\
  fst (GET_workout zeros24 (snd (PUT_workout zeros24 u w)))
  = OK (Workout.mk (Some zeros24) "Novo" predefined
          (NewDocument.splits (abc_classico 0%Z))
          (Some 1700000000000000%Z)).
Proof.
  intros w u.
  assert (Hu : WorkoutUpdate.name u <> None) by discriminate.
  assert (He : forall v, WorkoutUpdate.splits u = Some v ->
                         encodable v = true) by discriminate.
  split; [reflexivity|]. split; [exact Hu|].
  destruct (update_then_get zeros24 u w (sample_oid 0)
              (with_id (sample_oid 0) (abc_classico (utcnow 0)))
              eq_refl eq_refl (or_introl Hu) He) as [HP HG].
  split; [exact HP | exact (f_equal fst HG)].
Defined.

Lemma update_and_copy_of_missing_witness :
  let oid := [x50; x7f; x1f; x77; xbc; xf8; x6c; xd7; x99; x43; x90; x11] in
  ObjectId_of_str "507f1f77bcf86cd799439011" = inr oid /\
  find (has_id oid) (workouts (reseed empty_world)) = None /\
  PUT_workout "507f1f77bcf86cd799439011"
    (WorkoutUpdate.mk (Some "Novo") None) (reseed empty_world)
  = (Failure 400 "404: Treino não encontrado", reseed empty_world) /\
  PUT_workout "507f1f77bcf86cd799439011"
    (WorkoutUpdate.mk None
       (Some [WorkoutSplit.mk "A"
                [Exercise.mk "Squat" 9223372036854775808 "10" (Some "")
                   (Some "")]]))
    (reseed empty_world)
  = (Failure 400 "MongoDB can only handle up to 8-byte ints",
     reseed empty_world) /\
  POST_workout_copy "507f1f77bcf86cd799439011" "X" (reseed empty_world)
  = (Failure 400 "404: Treino não encontrado", reseed empty_world).
Proof.
  intros oid.
  assert (E : ObjectId_of_str "507f1f77bcf86cd799439011" = inr oid)
    by reflexivity.
  assert (F : find (has_id oid) (workouts (reseed empty_world)) = None)
    by reflexivity.
  split; [exact E|]. split; [exact F|].
  destruct (update_and_copy_of_missing "507f1f77bcf86cd799439011" oid
              (reseed empty_world) E F) as [HU HC].
  split; [|split].
  - refine (HU (WorkoutUpdate.mk (Some "Novo") None) (or_introl _)).
    discriminate.
  - refine (HU (WorkoutUpdate.mk None (Some _)) (or_intror _)).
    discriminate.
  - exact (HC "X").
Defined.

Lemma ids_stay_unique_witness :
  unique_ids empty_world /\
  List.length (workouts (serve_all sample_events empty_world)) = 5%nat /\
  unique_ids (serve_all sample_events empty_world).
Proof.
  split; [exact unique_ids_empty|]. split; [reflexivity|].
  exact (ids_stay_unique sample_events empty_world unique_ids_empty).
Defined.

Lemma event_keeps_type_and_date_witness :
  let w := reseed empty_world in
  let d := with_id (sample_oid 0) (abc_classico (utcnow 0)) in
  let d' :=
    Document.mk (sample_oid 0) "Novo" predefined (Document.splits d)
      (Document.createdAt d) in
  let r := Update zeros24 (WorkoutUpdate.mk (Some "Novo") None) in
  find (has_id (sample_oid 0)) (workouts w) = Some d /\
  find (has_id (sample_oid 0)) (workouts (serve r w)) = Some d' /\
  Document.type d' = Document.type d /\
  Document.createdAt d' = Document.createdAt d.
Proof.
  intros w d d' r. split; [reflexivity|]. split; [reflexivity|].
  exact (event_keeps_type_and_date r w (sample_oid 0) d d'
           unique_ids_sample eq_refl eq_refl).
Defined.

Lemma listed_workout_can_be_fetched_witness :
  let w := reseed empty_world in
  let wk :=
    Workout.mk (Some "000000000000000000000003") "Upper/Lower" predefined
      (NewDocument.splits (upper_lower 0%Z)) (Some 1700000003703000%Z) in
  In (Some wk)
    (match fst (get_workouts w) with inr l => l | inl _ => [] end) /\
  exists id, Workout.id wk = Some id /\ GET_workout id w = (OK wk, w).
Proof.
  intros w wk.
  assert (Hin : In (Some wk)
                  (match fst (get_workouts w) with
                   | inr l => l
                   | inl _ => []
                   end)) by (left; reflexivity).
  split; [exact Hin|].
  refine (listed_workout_can_be_fetched w wk unique_ids_sample _).
  eexists. split; [left; reflexivity | exact Hin].
Defined.

Lemma copy_then_get_then_delete_witness :
  let w := reseed empty_world in
  ObjectId_of_str zeros24 = inr (sample_oid 0) /\
  fresh 1 w = true /\
  exists copy id,
    fst (POST_workout_copy zeros24 "X" w) = OK copy /\
    Workout.id copy = Some id /\
    let w1 := snd (POST_workout_copy zeros24 "X" w) in
    GET_workout id w1 = (OK copy, w1) /\
    fst (DELETE_workout id w1) = OK deleted_message /\
    workouts (snd (DELETE_workout id w1)) = workouts w.
Proof.
  intros w. split; [reflexivity|]. split; [reflexivity|].
  exact (copy_then_get_then_delete zeros24 "X" w (sample_oid 0)
           (with_id (sample_oid 0) (abc_classico (utcnow 0)))
           eq_refl eq_refl eq_refl).
Defined.

Lemma create_then_delete_witness :
  fresh 1 (reseed empty_world) = true /\
  exists created id,
    fst (POST_workouts sample_body (reseed empty_world)) = OK created /\
    Workout.id created = Some id /\
    fst (DELETE_workout id
           (snd (POST_workouts sample_body (reseed empty_world))))
      = OK deleted_message /\
    workouts
      (snd (DELETE_workout id
              (snd (POST_workouts sample_body (reseed empty_world)))))
      = workouts (reseed empty_world).
Proof.
  split; [reflexivity|].
  exact (create_then_delete sample_body _ (reseed empty_world)
           eq_refl eq_refl eq_refl).
Defined.

Lemma delete_touches_one_workout_witness :
  let w := reseed empty_world in
  ObjectId_of_str zeros24 = inr (sample_oid 0) /\
  List.length (workouts (snd (DELETE_workout zeros24 w))) = 3%nat /\
  find (has_id (sample_oid 3)) (workouts (snd (DELETE_workout zeros24 w)))
  = find (has_id (sample_oid 3)) (workouts w).
Proof.
  intros w. split; [reflexivity|]. split; [reflexivity|].
  refine (proj1 (delete_touches_one_workout zeros24 (sample_oid 0) w
                   eq_refl) (sample_oid 3) _).
  discriminate.
Defined.

Lemma duplicate_key_answers_witness :
  let w := mkWorld (seeded empty_world) 4 0 in
  existsb (has_id (ObjectId_generate (oids_minted w))) (workouts w)
  = true /\
  POST_workouts sample_body w
  = (ServerError, mkWorld (seeded empty_world) 5 1) /\
  POST_workout_copy zeros24 "X" w
  = (Failure 400 "E11000 duplicate key error",
     mkWorld (seeded empty_world) 5 1).
Proof.
  intros w.
  assert (H : existsb (has_id (ObjectId_generate (oids_minted w)))
                (workouts w) = true) by reflexivity.
  split; [exact H|].
  destruct (duplicate_key_answers w H) as [Hc Hk].
  split.
  - exact (Hc sample_body _ eq_refl).
  - exact (Hk zeros24 "X" (sample_oid 0)
             (with_id (sample_oid 0) (abc_classico (utcnow 0)))
             eq_refl eq_refl).
Defined.

Lemma created_predefined_stops_seeding_witness :
  let body := CreateBody.mk (Some "Meu") (Some "predefined") (Some []) in
  fresh 1 empty_world = true /\
  no_predefined empty_world = true /\
  reseed (snd (POST_workouts body empty_world))
  = snd (POST_workouts body empty_world) /\
  List.length (workouts (reseed (snd (POST_workouts body empty_world))))
  = 1%nat.
Proof.
  intros body. split; [reflexivity|]. split; [reflexivity|].
  destruct (created_predefined_stops_seeding body empty_world "Meu" []
              eq_refl eq_refl eq_refl eq_refl eq_refl) as (_ & _ & Hs).
  unfold reseed. rewrite Hs. split; reflexivity.
Defined.

